(** * SOME inference core: checkpoint resolution and the inference loop

    A shallow embedding of [inference/base_infer.py] (class [BaseInference]),
    followed by the properties of the checkpoint loader, the model builder
    and the driving loop [infer].

    Python values are dynamically typed, so the deserialized checkpoint, the
    configuration and the values flowing through the pipeline stages are all
    terms of one type [pyobj].  A Python [dict] (and its subclass
    [OrderedDict]) keeps insertion order and has unique keys; it is an
    association list here, with [dict_set] doing what item assignment does.
    Exceptions are values of [exn]; a computation that may raise returns
    [res A]. *)

From Stdlib Require Import ZArith List String Ascii Bool Lia.
From Stdlib Require Import Floats.SpecFloat.
Import ListNotations.

Local Open Scope list_scope.
Local Open Scope string_scope.

Set Warnings "-register-all".

(** ** Python values *)

Module Py.

(** A [torch.Tensor] or [numpy.ndarray]: the core never looks inside one; the
    strict parameter application compares shapes only. *)
Record tensor : Type := Tensor {
  tensor_shape : list nat;
  tensor_data : list Z
}.

(** Hashable values used as dictionary keys: strings, byte strings, and
    integers, which stand for every key type without string methods. *)
Inductive pykey : Type :=
| KStr (s : string)
| KInt (z : Z)
| KBytes (b : string).

Inductive pyobj : Type :=
| PyNone
| PyInt (z : Z)
| PyFloat (f : spec_float)
| PyStr (s : string)
| PyTensor (t : tensor)
| PyArray (a : tensor)
| PyList (l : list pyobj)
| PyDict (items : list (pykey * pyobj)).

Definition pydict : Type := list (pykey * pyobj).

Inductive exn : Type :=
| RuntimeError (msg : string)
| KeyError (k : pykey)
| AttributeError (msg : string)
| TypeError (msg : string)
| ZeroDivisionError (msg : string)
| OverflowError (msg : string)
| NotImplementedError
| OtherError (name msg : string).

Inductive res (A : Type) : Type :=
| Ok (a : A)
| Raise (e : exn).

Arguments Ok {A} a.
Arguments Raise {A} e.

Definition bind {A B : Type} (c : res A) (k : A -> res B) : res B :=
  match c with
  | Ok a => k a
  | Raise e => Raise e
  end.

Declare Scope py_scope.
Delimit Scope py_scope with py.
Notation "x <- c ;; k" := (bind c (fun x => k))
  (at level 100, c at next level, right associativity) : py_scope.

(** *** Strings *)

(** [s.startswith(p)] *)
Fixpoint startswith (p s : string) : bool :=
  match p, s with
  | EmptyString, _ => true
  | String a p', String b s' => if Ascii.eqb a b then startswith p' s' else false
  | String _ _, EmptyString => false
  end.

(** [s[n:]] for a non-negative [n] *)
Fixpoint slice_from (n : nat) (s : string) : string :=
  match n, s with
  | O, _ => s
  | S n', String _ s' => slice_from n' s'
  | S _, EmptyString => EmptyString
  end.

(** [sep.join(l)] *)
Fixpoint join (sep : string) (l : list string) : string :=
  match l with
  | [] => EmptyString
  | [x] => x
  | x :: rest => x ++ sep ++ join sep rest
  end.

(** [sub in s] for strings *)
Definition contains (s sub : string) : Prop :=
  exists pre post, s = pre ++ sub ++ post.

(** *** Dictionaries *)

Definition key_eqb (a b : pykey) : bool :=
  match a, b with
  | KStr x, KStr y => String.eqb x y
  | KInt x, KInt y => Z.eqb x y
  | KBytes x, KBytes y => String.eqb x y
  | _, _ => false
  end.

(** [d.get(k)] *)
Fixpoint dict_get (k : pykey) (d : pydict) : option pyobj :=
  match d with
  | [] => None
  | (k', v) :: rest => if key_eqb k k' then Some v else dict_get k rest
  end.

(** [k in d] *)
Definition dict_contains (k : pykey) (d : pydict) : bool :=
  match dict_get k d with
  | Some _ => true
  | None => false
  end.

(** [d[k]] *)
Definition dict_getitem (k : pykey) (d : pydict) : res pyobj :=
  match dict_get k d with
  | Some v => Ok v
  | None => Raise (KeyError k)
  end.

(** [d[k] = v]: an existing key keeps its position, a new one goes last. *)
Fixpoint dict_set (k : pykey) (v : pyobj) (d : pydict) : pydict :=
  match d with
  | [] => [(k, v)]
  | (k', v') :: rest =>
      if key_eqb k k' then (k', v) :: rest else (k', v') :: dict_set k v rest
  end.

Definition dict_keys (d : pydict) : list pykey := map fst d.

(** The invariant of every Python dictionary: no key occurs twice. *)
Definition dict_wf (d : pydict) : Prop := NoDup (dict_keys d).

Definition is_str_key (k : pykey) : bool :=
  match k with
  | KStr _ => true
  | KInt _ => false
  | KBytes _ => false
  end.

(** [isinstance(o, dict)]; [OrderedDict] is a subclass of [dict], so
    [isinstance(o, (dict, OrderedDict))] is the same test. *)
Definition is_dict (o : pyobj) : bool :=
  match o with
  | PyDict _ => true
  | _ => false
  end.

End Py.

Export Py.
Local Open Scope py_scope.

(** ** The part of PyTorch the model builder calls *)

Module Torch.

(** An [nn.Module] as the builder sees it: its class, the entries of its
    [state_dict()] (the parameters and persistent buffers the architecture
    declares, with their current values), the training flag and the device. *)
Record nn_module : Type := NNModule {
  class_name : string;
  state : list (string * tensor);
  training : bool;
  module_device : string
}.

(** [m.eval()] *)
Definition eval (m : nn_module) : nn_module :=
  NNModule (class_name m) (state m) false (module_device m).

(** [m.to(device)] *)
Definition to (device : string) (m : nn_module) : nn_module :=
  NNModule (class_name m) (state m) (training m) device.

Definition declared_keys (m : nn_module) : list string := map fst (state m).

Definition dquote : string := String "034"%char EmptyString.
Definition newline_tab : string := String "010"%char (String "009"%char EmptyString).

(** [f'"{k}"'] *)
Definition quoted (k : string) : string := dquote ++ k ++ dquote.

Fixpoint str_keys (d : pydict) : res (list string) :=
  match d with
  | [] => Ok []
  | (KStr k, _) :: rest => ks <- str_keys rest ;; Ok (k :: ks)
  | (KInt _, _) :: _ =>
      Raise (AttributeError "'int' object has no attribute 'startswith'")
  | (KBytes _, _) :: _ =>
      Raise (TypeError "startswith first arg must be bytes or a tuple of bytes, not str")
  end.

(** The messages collected while copying the entries present on both sides. *)
Fixpoint copy_errors (declared : list (string * tensor)) (sd : pydict) : list string :=
  match declared with
  | [] => []
  | (k, cur) :: rest =>
      match dict_get (KStr k) sd with
      | Some (PyTensor t) =>
          if list_eq_dec Nat.eq_dec (tensor_shape t) (tensor_shape cur)
          then copy_errors rest sd
          else ("size mismatch for " ++ k ++ ".") :: copy_errors rest sd
      | Some _ =>
          ("While copying the parameter named " ++ quoted k
             ++ ", expected torch.Tensor or Tensor-like object from checkpoint.")
            :: copy_errors rest sd
      | None => copy_errors rest sd
      end
  end.

Definition copy_state (declared : list (string * tensor)) (sd : pydict)
  : list (string * tensor) :=
  map (fun '(k, cur) =>
         match dict_get (KStr k) sd with
         | Some (PyTensor t) => (k, t)
         | _ => (k, cur)
         end) declared.

Definition missing_keys (m : nn_module) (sd : pydict) : list string :=
  filter (fun k => negb (dict_contains (KStr k) sd)) (declared_keys m).

Definition unexpected_keys (m : nn_module) (keys : list string) : list string :=
  filter (fun k => negb (existsb (String.eqb k) (declared_keys m))) keys.

Definition keys_message (what : string) (keys : list string) : list string :=
  match keys with
  | [] => []
  | _ => [what ++ " key(s) in state_dict: " ++ join ", " (map quoted keys) ++ ". "]
  end.

(** Modelled from the spec: [torch.nn.Module.load_state_dict] is PyTorch's and
    not part of the sources.  Section 4.3 gives its strict contract: every
    parameter the architecture declares must be present in the mapping and
    every mapping entry must be consumed, or the operation fails with a
    mismatch error naming the missing and unexpected keys; section 3 adds that
    every value's shape must match.  The error is PyTorch's [RuntimeError]
    and the message is laid out as PyTorch does (missing keys first, then
    unexpected keys, then the per-entry messages); the rendering of tensor
    shapes inside a size-mismatch message is left out. *)
Definition load_state_dict (m : nn_module) (state_dict : pyobj) (strict : bool)
  : res nn_module :=
  match state_dict with
  | PyDict sd =>
      keys <- str_keys sd ;;
      let error_msgs := copy_errors (state m) sd in
      let error_msgs :=
        if strict
        then (keys_message "Missing" (missing_keys m sd)
                ++ keys_message "Unexpected" (unexpected_keys m keys)
                ++ error_msgs)%list
        else error_msgs in
      match error_msgs with
      | [] => Ok (NNModule (class_name m) (copy_state (state m) sd)
                           (training m) (module_device m))
      | _ :: _ =>
          Raise (RuntimeError ("Error(s) in loading state_dict for " ++ class_name m
                                 ++ ":" ++ newline_tab ++ join newline_tab error_msgs))
      end
  | _ => Raise (TypeError "Expected state_dict to be dict-like")
  end.

End Torch.

Export Torch.

(** ** Python's true division on numbers

    A Python [float] is an IEEE 754 binary64 number: [spec_float] with 53 bits
    of precision and exponent bound 1024, rounded to nearest even.  [int / int]
    is the correctly rounded quotient of the two integers; a mixed division
    first converts the integer operand.  Operands that are not numbers are
    rejected; array operands, which NumPy and PyTorch would divide
    elementwise, are outside the model and rejected with them. *)

Module PyNum.

Definition prec : Z := 53.
Definition emax : Z := 1024.

Definition int_exact (z : Z) : spec_float :=
  match z with
  | Z0 => S754_zero false
  | Zpos p => S754_finite false p 0
  | Zneg p => S754_finite true p 0
  end.

(** [float(z)] *)
Definition float_of_int (z : Z) : res spec_float :=
  match binary_normalize prec emax z 0 false with
  | S754_infinity _ => Raise (OverflowError "int too large to convert to float")
  | f => Ok f
  end.

Definition int_truediv (a b : Z) : res spec_float :=
  if (b =? 0)%Z then Raise (ZeroDivisionError "division by zero")
  else match SFdiv prec emax (int_exact a) (int_exact b) with
       | S754_infinity _ =>
           Raise (OverflowError "integer division result too large for a float")
       | f => Ok f
       end.

Definition float_is_zero (f : spec_float) : bool :=
  match f with
  | S754_zero _ => true
  | _ => false
  end.

Definition float_truediv (x y : spec_float) : res spec_float :=
  if float_is_zero y then Raise (ZeroDivisionError "float division by zero")
  else Ok (SFdiv prec emax x y).

(** [x / y] *)
Definition truediv (x y : pyobj) : res pyobj :=
  match x, y with
  | PyInt a, PyInt b => f <- int_truediv a b ;; Ok (PyFloat f)
  | PyInt a, PyFloat g => f <- float_of_int a ;; q <- float_truediv f g ;; Ok (PyFloat q)
  | PyFloat f, PyInt b => g <- float_of_int b ;; q <- float_truediv f g ;; Ok (PyFloat q)
  | PyFloat f, PyFloat g => q <- float_truediv f g ;; Ok (PyFloat q)
  | _, _ => Raise (TypeError "unsupported operand type(s) for /")
  end.

End PyNum.

Export PyNum.

(** ** [BaseInference]: construction *)

(** [k in o] and [o[k]] are only reached for a dictionary [o] in this code;
    elsewhere [py_in] answers [false] and [py_getitem] raises [TypeError]. *)
Definition py_in (k : pykey) (o : pyobj) : bool :=
  match o with
  | PyDict d => dict_contains k d
  | _ => false
  end.

Definition py_getitem (o : pyobj) (k : pykey) : res pyobj :=
  match o with
  | PyDict d => dict_getitem k d
  | _ => Raise (TypeError "object is not subscriptable")
  end.

(** [o.items()] *)
Definition py_items (o : pyobj) : res pydict :=
  match o with
  | PyDict d => Ok d
  | _ => Raise (AttributeError "object has no attribute 'items'")
  end.

(** The dictionary comprehension of [build_model]:
    [{k[len(prefix_in_ckpt) + 1:]: v for k, v in items
      if k.startswith(f'{prefix_in_ckpt}.')}], filling [acc] in iteration order. *)
Fixpoint strip_prefix (prefix_in_ckpt : string) (items acc : pydict) : res pydict :=
  match items with
  | [] => Ok acc
  | (KStr k, v) :: rest =>
      if startswith (prefix_in_ckpt ++ ".") k
      then strip_prefix prefix_in_ckpt rest
             (dict_set (KStr (slice_from (String.length prefix_in_ckpt + 1) k)) v acc)
      else strip_prefix prefix_in_ckpt rest acc
  | (KInt _, _) :: _ =>
      Raise (AttributeError "'int' object has no attribute 'startswith'")
  | (KBytes _, _) :: _ =>
      Raise (TypeError "startswith first arg must be bytes or a tuple of bytes, not str")
  end.

(** The unsupported-format message: [f'Unsupported checkpoint format at {model_path}'] *)
Definition unsupported_format (model_path : string) : exn :=
  RuntimeError ("Unsupported checkpoint format at " ++ model_path).

(** The [if]/[elif]/[else] chain of [build_model] (lines 28-42): from the
    deserialized checkpoint to the value bound to [state_dict]. *)
Definition checkpoint_state_dict (model_path : string) (ckpt : pyobj) : res pyobj :=
  if is_dict ckpt && py_in (KStr "state_dict") ckpt then
    state_dict <- py_getitem ckpt (KStr "state_dict") ;;
    let prefix_in_ckpt := "model" in
    items <- py_items state_dict ;;
    stripped <- strip_prefix prefix_in_ckpt items [] ;;
    Ok (PyDict stripped)
  else if is_dict ckpt && py_in (KStr "model") ckpt
          && match py_getitem ckpt (KStr "model") with
             | Ok v => is_dict v
             | Raise _ => false
             end then
    py_getitem ckpt (KStr "model")
  else if is_dict ckpt then
    Ok ckpt
  else
    Raise (unsupported_format model_path).

Record BaseInference : Type := {
  config : pydict;
  model_path : string;
  device : string;
  timestep : pyobj;
  model : nn_module
}.

Section Collaborators.

(** [utils.build_object_from_class_name(cls_str, nn.Module, config=config)]
    lives outside the examined sources; the class resolver is a parameter. *)
Variable build_object_from_class_name : pyobj -> pydict -> res nn_module.

(** [torch.load(path, map_location=device)]: the deserialized artifact. *)
Variable torch_load : string -> string -> res pyobj.

(** [torch.cuda.is_available()] *)
Variable cuda_is_available : bool.

Definition loaded_message (model_path : string) : string :=
  "| loaded model weights from '" ++ model_path ++ "'.".

(** [build_model]; the first component is what it prints. *)
Definition build_model (config : pydict) (model_path device : string)
  : list string * res nn_module :=
  match
    (model_cls <- dict_getitem (KStr "model_cls") config ;;
     model <- build_object_from_class_name model_cls config ;;
     let model := to device (eval model) in
     ckpt <- torch_load model_path device ;;
     state_dict <- checkpoint_state_dict model_path ckpt ;;
     load_state_dict model state_dict true)
  with
  | Ok model => ([loaded_message model_path], Ok model)
  | Raise e => ([], Raise e)
  end.

(** [__init__] *)
Definition init (config : pydict) (model_path : string) (device : option string)
  : list string * res BaseInference :=
  let device :=
    match device with
    | None => if cuda_is_available then "cuda" else "cpu"
    | Some d => d
    end in
  match
    (hop_size <- dict_getitem (KStr "hop_size") config ;;
     audio_sample_rate <- dict_getitem (KStr "audio_sample_rate") config ;;
     truediv hop_size audio_sample_rate)
  with
  | Raise e => ([], Raise e)
  | Ok timestep =>
      let '(out, built) := build_model config model_path device in
      (out, model <- built ;;
            Ok {| config := config; model_path := model_path; device := device;
                  timestep := timestep; model := model |})
  end.

End Collaborators.

(** ** [BaseInference]: the pipeline stages and the driving loop *)

Section Pipeline.

(** Everything a stage method can read or change when it runs: the pipeline
    object itself and whatever it reaches. *)
Variable world : Type.

(** A method that may change the world and may raise. *)
Definition action (A : Type) : Type := world -> world * res A.

Definition ret {A : Type} (a : A) : action A := fun s => (s, Ok a).

Definition raise {A : Type} (e : exn) : action A := fun s => (s, Raise e).

Definition and_then {A B : Type} (c : action A) (k : A -> action B) : action B :=
  fun s =>
    match c s with
    | (s', Ok a) => k a s'
    | (s', Raise e) => (s', Raise e)
    end.

(** The three extension points a task-specific subclass supplies. *)
Record stages : Type := Stages {
  preprocess : pyobj -> action pyobj;
  forward_model : pyobj -> action pyobj;
  postprocess : pyobj -> action pyobj
}.

(** The base class leaves all three unimplemented. *)
Definition base_stages : stages :=
  {| preprocess := fun _ => raise NotImplementedError;
     forward_model := fun _ => raise NotImplementedError;
     postprocess := fun _ => raise NotImplementedError |}.

Variable self : stages.

(** The body of the [for] loop of [infer] for one waveform, up to the value
    appended to [results]. *)
Definition infer_item (w : pyobj) : action pyobj :=
  and_then (preprocess self w) (fun model_in =>
  and_then (forward_model self model_in) (fun model_out =>
  postprocess self model_out)).

(** [for w in tqdm.tqdm(waveforms): ...; results.append(res)]: the progress
    bar hands out the elements of [waveforms] in order. *)
Fixpoint infer_loop (waveforms : list pyobj) (results : list pyobj)
  : action (list pyobj) :=
  match waveforms with
  | [] => ret results
  | w :: rest =>
      and_then (preprocess self w) (fun model_in =>
      and_then (forward_model self model_in) (fun model_out =>
      and_then (postprocess self model_out) (fun res =>
      infer_loop rest (results ++ [res])%list)))
  end.

(** [infer] *)
Definition infer (waveforms : list pyobj) : action (list pyobj) :=
  infer_loop waveforms [].

End Pipeline.

Arguments ret {world A} a.
Arguments raise {world A} e.
Arguments and_then {world A B} c k.
Arguments preprocess {world} s.
Arguments forward_model {world} s.
Arguments postprocess {world} s.
Arguments base_stages {world}.
Arguments infer_item {world} self w.
Arguments infer_loop {world} self waveforms results.
Arguments infer {world} self waveforms.

(** *** Recording the stage calls

    [traced self] behaves as [self] and appends an event to a log kept next
    to the world each time a stage is entered. *)

Inductive stage_call : Type :=
| CallPreprocess (w : pyobj)
| CallForwardModel (model_in : pyobj)
| CallPostprocess (model_out : pyobj).

Definition logged {world A : Type} (ev : stage_call) (c : action world A)
  : action (world * list stage_call) A :=
  fun '(s, log) =>
    let '(s', r) := c s in ((s', (log ++ [ev])%list), r).

Definition traced {world : Type} (self : stages world)
  : stages (world * list stage_call) :=
  {| preprocess := fun w => logged (CallPreprocess w) (preprocess self w);
     forward_model := fun x => logged (CallForwardModel x) (forward_model self x);
     postprocess := fun y => logged (CallPostprocess y) (postprocess self y) |}.

(** ** The task registry ([inference/__init__.py]) *)

(** [task_inference_mapping]: from the task type recorded at training time
    to the qualified name of the pipeline class that serves it. *)
Definition task_inference_mapping : pydict :=
  [(KStr "training.MIDIExtractionTask",
    PyStr "SOME.inference.MIDIExtractionInference");
   (KStr "training.QuantizedMIDIExtractionTask",
    PyStr "SOME.inference.QuantizedMIDIExtractionInference")].

(** * The vocabulary of the specification

    Definitions that follow the words of the specification, to state its
    sentences and compare them with the code above. *)

(** ** Checkpoint shapes *)

(** The classification of section 4.2, step 2, as the specification words
    it: three shapes, each with its own predicate, tried in a fixed priority
    order; the first one that matches wins and anything else is unsupported. *)
Inductive shape : Type :=
| StateDictWrapper
| ModelWrapper
| RawMapping
| Unsupported.

Definition shape_matches (sh : shape) (ckpt : pyobj) : bool :=
  match sh with
  | StateDictWrapper => is_dict ckpt && py_in (KStr "state_dict") ckpt
  | ModelWrapper =>
      match ckpt with
      | PyDict d =>
          match dict_get (KStr "model") d with
          | Some v => is_dict v
          | None => false
          end
      | _ => false
      end
  | RawMapping => is_dict ckpt
  | Unsupported => true
  end.

Definition priority : list shape := [StateDictWrapper; ModelWrapper; RawMapping].

Definition classify (ckpt : pyobj) : shape :=
  match find (fun sh => shape_matches sh ckpt) priority with
  | Some sh => sh
  | None => Unsupported
  end.

(** What each shape extracts, taken alone. *)
Definition extract (model_path : string) (sh : shape) (ckpt : pyobj) : res pyobj :=
  match sh with
  | StateDictWrapper =>
      state_dict <- py_getitem ckpt (KStr "state_dict") ;;
      items <- py_items state_dict ;;
      stripped <- strip_prefix "model" items [] ;;
      Ok (PyDict stripped)
  | ModelWrapper => py_getitem ckpt (KStr "model")
  | RawMapping => Ok ckpt
  | Unsupported => Raise (unsupported_format model_path)
  end.

(** The entries section 3 keeps from the nested mapping of shape 1, in the
    specification's words: those whose key starts with the prefix, with the
    prefix stripped. *)
Definition kept_entries (prefix : string) (sd : pydict) : pydict :=
  flat_map
    (fun kv =>
       match fst kv with
       | KStr k =>
           if startswith prefix k
           then [(KStr (slice_from (String.length prefix) k), snd kv)]
           else []
       | KInt _ => []
       | KBytes _ => []
       end) sd.

Definition str_keyed (d : pydict) : bool := forallb (fun kv => is_str_key (fst kv)) d.

(** ** Runs of the driving loop *)

(** [run_items self s ws s' rs]: starting in [s], every waveform of [ws] goes
    through the three stages without raising, yielding [rs] and leaving the
    world in [s']. *)
Inductive run_items {world : Type} (self : stages world)
  : world -> list pyobj -> world -> list pyobj -> Prop :=
| run_items_nil (s : world) : run_items self s [] s []
| run_items_cons (s s1 s2 : world) (w r : pyobj) (ws rs : list pyobj) :
    infer_item self w s = (s1, Ok r) ->
    run_items self s1 ws s2 rs ->
    run_items self s (w :: ws) s2 (r :: rs).

(** The stage calls the loop body makes for one waveform. *)
Definition item_calls {world : Type} (self : stages world) (w : pyobj) (s : world)
  : list stage_call :=
  match preprocess self w s with
  | (s1, Ok x) =>
      match forward_model self x s1 with
      | (_, Ok y) => [CallPreprocess w; CallForwardModel x; CallPostprocess y]
      | (_, Raise _) => [CallPreprocess w; CallForwardModel x]
      end
  | (_, Raise _) => [CallPreprocess w]
  end.

Definition is_preprocess_call (c : stage_call) : bool :=
  match c with
  | CallPreprocess _ => true
  | _ => false
  end.

Definition preprocess_calls (log : list stage_call) : nat :=
  List.length (filter is_preprocess_call log).

(** A mapping from named output channels to numeric arrays. *)
Definition is_channel_mapping (o : pyobj) : bool :=
  match o with
  | PyDict d =>
      forallb (fun kv => match kv with
                         | (KStr _, PyArray _) => true
                         | _ => false
                         end) d
  | _ => false
  end.

(** A pipeline used to exercise the loop: the world counts the stage calls;
    [preprocess] accepts arrays only. *)
Definition counting_stages : stages nat :=
  {| preprocess := fun w n =>
       match w with
       | PyArray a => (S n, Ok (PyDict [(KStr "units", PyTensor a)]))
       | _ => (S n, Raise (TypeError "expected an array"))
       end;
     forward_model := fun model_in n => (S n, Ok model_in);
     postprocess := fun model_out n =>
       match py_getitem model_out (KStr "units") with
       | Ok (PyTensor t) => (S n, Ok (PyDict [(KStr "note_midi", PyArray t)]))
       | _ => (S n, Raise (KeyError (KStr "units")))
       end |}.

(** ** The per-frame duration *)




(** ** Checkpoint layouts written from a parameter mapping *)

(** A parameter mapping given by its names, as a dictionary. *)
Definition named_entries (sd : list (string * pyobj)) : pydict :=
  map (fun kv => (KStr (fst kv), snd kv)) sd.

(** The same entries, each name under [prefix]. *)
Definition prefixed_entries (prefix : string) (sd : list (string * pyobj)) : pydict :=
  map (fun kv => (KStr (prefix ++ fst kv), snd kv)) sd.

(** ** The calls of one waveform that went through *)

(** [item_triple self w calls]: [calls] are the three stage calls of [w], each
    stage receiving what the previous one returned. *)
Definition item_triple {world : Type} (self : stages world) (w : pyobj)
  (calls : list stage_call) : Prop :=
  exists x y s0 s1 s2,
    preprocess self w s0 = (s1, Ok x)
    /\ forward_model self x s1 = (s2, Ok y)
    /\ calls = [CallPreprocess w; CallForwardModel x; CallPostprocess y].

(** ** Operands of the constructor's division *)

(** Values that support no division at all: [None], strings, lists and
    dictionaries. *)
Definition plain_non_number (o : pyobj) : bool :=
  match o with
  | PyNone | PyStr _ | PyList _ | PyDict _ => true
  | _ => false
  end.

(** Tensors and arrays, which bring a division of their own. *)
Definition is_array (o : pyobj) : bool :=
  match o with
  | PyTensor _ | PyArray _ => true
  | _ => false
  end.

Definition is_number (o : pyobj) : bool :=
  match o with
  | PyInt _ | PyFloat _ => true
  | _ => false
  end.

(** ** Malformed payloads *)

(** The first key of a dictionary, in iteration order, that is not a string. *)
Definition first_non_str_key (d : pydict) : option pykey :=
  find (fun k => negb (is_str_key k)) (dict_keys d).

(** ** A pipeline that follows the declared signatures *)

(** [postprocess] is declared to return [List[Dict[str, np.ndarray]]]: this
    pipeline returns, for each waveform, a one-element list holding the
    channel mapping. *)
Definition annotated_stages : stages nat :=
  {| preprocess := fun w n => (S n, Ok (PyDict [(KStr "units", w)]));
     forward_model := fun model_in n => (S n, Ok model_in);
     postprocess := fun model_out n =>
       match py_getitem model_out (KStr "units") with
       | Ok (PyArray a) => (S n, Ok (PyList [PyDict [(KStr "note_midi", PyArray a)]]))
       | _ => (S n, Raise (KeyError (KStr "units")))
       end |}.

(** * Properties *)

(** ** Strings and dictionaries *)

Section StringFacts.

Lemma startswith_app (p t : string) : startswith p (p ++ t) = true.
Proof.
  induction p as [|a p IH]; simpl; [reflexivity|].
  now rewrite Ascii.eqb_refl.
Qed.

Lemma slice_from_app (p t : string) : slice_from (String.length p) (p ++ t) = t.
Proof. induction p as [|a p IH]; simpl; auto. Qed.

Lemma startswith_split (p s : string) :
  startswith p s = true -> s = p ++ slice_from (String.length p) s.
Proof.
  revert s; induction p as [|a p IH]; intros s H; simpl in *; [reflexivity|].
  destruct s as [|b s]; [discriminate|].
  destruct (Ascii.eqb_spec a b) as [->|]; [|discriminate].
  simpl. f_equal. now apply IH.
Qed.

Lemma string_length_app (p t : string) :
  String.length (p ++ t) = String.length p + String.length t.
Proof. induction p as [|a p IH]; simpl; auto. Qed.

Lemma app_assoc_str (a b c : string) : (a ++ b) ++ c = a ++ (b ++ c).
Proof. induction a as [|x a IH]; simpl; [reflexivity|now rewrite IH]. Qed.

Lemma app_empty_r (a : string) : a ++ "" = a.
Proof. induction a as [|x a IH]; simpl; [reflexivity|now rewrite IH]. Qed.

Lemma app_inv_head_str (p a b : string) : p ++ a = p ++ b -> a = b.
Proof.
  induction p as [|x p IH]; simpl; intros H; [assumption|].
  injection H as H. now apply IH.
Qed.

Lemma contains_refl (s : string) : contains s s.
Proof. exists "", "". simpl. now rewrite app_empty_r. Qed.

Lemma contains_app_l (s t sub : string) : contains s sub -> contains (s ++ t) sub.
Proof.
  intros (pre & post & ->). exists pre, (post ++ t).
  now rewrite !app_assoc_str.
Qed.

Lemma contains_app_r (s t sub : string) : contains t sub -> contains (s ++ t) sub.
Proof.
  intros (pre & post & ->). exists (s ++ pre), post.
  now rewrite !app_assoc_str.
Qed.

Lemma contains_trans (s t u : string) : contains s t -> contains t u -> contains s u.
Proof.
  intros (p1 & q1 & ->) (p2 & q2 & ->).
  exists (p1 ++ p2), (q2 ++ q1). now rewrite !app_assoc_str.
Qed.

Lemma contains_join (sep : string) (l : list string) (x : string) :
  In x l -> contains (join sep l) x.
Proof.
  induction l as [|y l IH]; intros Hin; [contradiction|].
  destruct Hin as [->|Hin].
  - destruct l; simpl; [apply contains_refl|apply contains_app_l, contains_refl].
  - destruct l as [|z l]; [contradiction|].
    change (join sep (y :: z :: l)) with (y ++ sep ++ join sep (z :: l)).
    apply contains_app_r, contains_app_r, IH, Hin.
Qed.

End StringFacts.

Section DictFacts.

Lemma key_eqb_spec (a b : pykey) : reflect (a = b) (key_eqb a b).
Proof.
  destruct a as [x|x|x], b as [y|y|y]; simpl; try (constructor; discriminate).
  - destruct (String.eqb_spec x y); constructor; congruence.
  - destruct (Z.eqb_spec x y); constructor; congruence.
  - destruct (String.eqb_spec x y); constructor; congruence.
Qed.

Lemma key_eqb_refl (a : pykey) : key_eqb a a = true.
Proof. now destruct (key_eqb_spec a a). Qed.

Lemma dict_get_in (k : pykey) (d : pydict) (v : pyobj) :
  dict_get k d = Some v -> In k (dict_keys d).
Proof.
  induction d as [|[k' v'] d IH]; simpl; [discriminate|].
  destruct (key_eqb_spec k k'); auto.
Qed.

Lemma dict_get_none (k : pykey) (d : pydict) :
  ~ In k (dict_keys d) -> dict_get k d = None.
Proof.
  induction d as [|[k' v'] d IH]; simpl; [reflexivity|]; intros H.
  destruct (key_eqb_spec k k') as [->|]; [exfalso|]; auto.
Qed.

Lemma dict_contains_in (k : pykey) (d : pydict) :
  dict_contains k d = true <-> In k (dict_keys d).
Proof.
  unfold dict_contains. split.
  - destruct (dict_get k d) eqn:E; [intros _; eapply dict_get_in, E|discriminate].
  - intros H. destruct (dict_get k d) eqn:E; [reflexivity|].
    exfalso. revert H E. induction d as [|[k' v'] d IH]; simpl; [tauto|].
    destruct (key_eqb_spec k k'); [discriminate|]. intros [->|H]; [congruence|auto].
Qed.

(** Assigning to a key the dictionary does not have appends the entry. *)
Lemma dict_set_fresh (k : pykey) (v : pyobj) (d : pydict) :
  ~ In k (dict_keys d) -> dict_set k v d = (d ++ [(k, v)])%list.
Proof.
  induction d as [|[k' v'] d IH]; simpl; [reflexivity|]; intros H.
  destruct (key_eqb_spec k k') as [->|]; [exfalso; auto|].
  f_equal. apply IH. auto.
Qed.

End DictFacts.

(** ** The checkpoint loader *)

Section Comprehension.

Variable prefix : string.

Lemma kept_keys_in (sd : pydict) (k : pykey) :
  In k (dict_keys (kept_entries prefix sd)) ->
  exists t, k = KStr t /\ In (KStr (prefix ++ t)) (dict_keys sd).
Proof.
  induction sd as [|[k0 v0] sd IH]; simpl; [contradiction|].
  unfold dict_keys in *. rewrite map_app. intros H.
  apply in_app_or in H. destruct H as [H|H].
  - destruct k0 as [s|z|b]; simpl in H; [|contradiction..].
    destruct (startswith prefix s) eqn:E; simpl in H; [|contradiction].
    destruct H as [<-|[]]. eexists; split; [reflexivity|].
    left. simpl. f_equal. now apply startswith_split.
  - destruct (IH H) as (t & -> & Hin). exists t; split; [reflexivity|now right].
Qed.

Lemma kept_entries_wf (sd : pydict) : dict_wf sd -> dict_wf (kept_entries prefix sd).
Proof.
  unfold dict_wf. induction sd as [|[k0 v0] sd IH]; simpl; intros H; [constructor|].
  inversion H as [|? ? Hnotin Hnd]; subst.
  unfold dict_keys in *. rewrite map_app.
  destruct k0 as [s|z|b]; simpl; [|now apply IH..].
  destruct (startswith prefix s) eqn:E; simpl; [|now apply IH].
  constructor; [|now apply IH].
  intros Hin. destruct (kept_keys_in sd _ Hin) as (t & Heq & Hin').
  injection Heq as <-. apply Hnotin.
  now rewrite (startswith_split _ _ E).
Qed.

Lemma kept_entries_get (sd : pydict) (k : string) :
  dict_get (KStr k) (kept_entries prefix sd) = dict_get (KStr (prefix ++ k)) sd.
Proof.
  induction sd as [|[k0 v0] sd IH]; simpl; [reflexivity|].
  destruct k0 as [s|z|b]; simpl; [|assumption..].
  destruct (startswith prefix s) eqn:E; simpl.
  - rewrite (startswith_split _ _ E) at 2.
    destruct (String.eqb_spec k (slice_from (String.length prefix) s)) as [->|Hne].
    + now rewrite String.eqb_refl.
    + destruct (String.eqb_spec (prefix ++ k)
                  (prefix ++ slice_from (String.length prefix) s)) as [Heq|_]; [|assumption].
      apply app_inv_head_str in Heq. contradiction.
  - destruct (String.eqb_spec (prefix ++ k) s) as [<-|_]; [|assumption].
    now rewrite startswith_app in E.
Qed.

Lemma kept_entries_get_int (sd : pydict) (z : Z) :
  dict_get (KInt z) (kept_entries prefix sd) = None.
Proof.
  apply dict_get_none. intros H.
  destruct (kept_keys_in _ _ H) as (t & Heq & _). discriminate.
Qed.

End Comprehension.

(** On a well-formed dictionary with string keys the comprehension of the
    source appends exactly the kept entries, in order. *)
Lemma strip_prefix_kept (p : string) (items acc : pydict) :
  str_keyed items = true ->
  NoDup (dict_keys acc ++ dict_keys (kept_entries (p ++ ".") items)) ->
  strip_prefix p items acc = Ok (acc ++ kept_entries (p ++ ".") items)%list.
Proof.
  assert (Hlen : String.length (p ++ ".") = String.length p + 1)
    by (rewrite string_length_app; reflexivity).
  revert acc. induction items as [|[k v] items IH]; intros acc Hstr Hnd; simpl.
  - now rewrite app_nil_r.
  - simpl in Hstr. apply andb_prop in Hstr as [Hk Hstr].
    destruct k as [s|z|b]; [|discriminate..]. simpl in Hnd |- *.
    destruct (startswith (p ++ ".") s) eqn:E; simpl in Hnd |- *; [|now apply IH].
    rewrite <- Hlen.
    set (k' := KStr (slice_from (String.length (p ++ ".")) s)) in *.
    assert (Hfresh : ~ In k' (dict_keys acc)).
    { intros Hin. apply NoDup_remove_2 in Hnd. apply Hnd, in_or_app. now left. }
    rewrite (dict_set_fresh _ _ _ Hfresh), IH; auto.
    + now rewrite <- app_assoc.
    + unfold dict_keys in *. rewrite map_app, <- app_assoc. exact Hnd.
Qed.

Lemma checkpoint_state_dict_wrapper (model_path : string) (d : pydict) (v : pyobj) :
  dict_get (KStr "state_dict") d = Some v ->
  checkpoint_state_dict model_path (PyDict d) =
    (items <- py_items v ;; stripped <- strip_prefix "model" items [] ;; Ok (PyDict stripped)).
Proof.
  intros H. unfold checkpoint_state_dict, py_in, py_getitem, dict_contains, dict_getitem.
  simpl. now rewrite H.
Qed.

(** The checkpoint of section 8, for any two values. *)
Example state_dict_wrapper_example (model_path : string) (W Y : pyobj) :
  checkpoint_state_dict model_path
    (PyDict [(KStr "state_dict",
              PyDict [(KStr "model.linear.weight", W); (KStr "other.x", Y)])])
  = Ok (PyDict [(KStr "linear.weight", W)]).
Proof. reflexivity. Qed.

(** Shape (i) expects a mapping with string keys under 'state_dict': anything
    else there fails inside the branch with Python's own error. *)
Example state_dict_entry_not_a_mapping (model_path : string) :
  checkpoint_state_dict model_path (PyDict [(KStr "state_dict", PyNone)])
  = Raise (AttributeError "object has no attribute 'items'").
Proof. reflexivity. Qed.

(** C1: a checkpoint that is a mapping with a nested mapping under
    'state_dict' yields exactly the nested entries whose key starts with
    'model.', with that prefix stripped, in their order, and nothing else:
    a name [k] is bound to [v] in the result exactly when ['model.' + k] is
    bound to [v] in the nested mapping, and every key of the result is such a
    stripped name. *)
Theorem state_dict_wrapper_keeps_model_entries
  (model_path : string) (d sd : pydict) :
  dict_get (KStr "state_dict") d = Some (PyDict sd) ->
  dict_wf sd ->
  str_keyed sd = true ->
  exists out,
    checkpoint_state_dict model_path (PyDict d) = Ok (PyDict out)
    /\ out = kept_entries "model." sd
    /\ (forall k v, dict_get (KStr k) out = Some v
                    <-> dict_get (KStr ("model." ++ k)) sd = Some v)
    /\ (forall k, In k (dict_keys out) ->
                  exists t, k = KStr t /\ In (KStr ("model." ++ t)) (dict_keys sd))
    /\ dict_wf out.
Proof.
  intros Hget Hwf Hstr. exists (kept_entries "model." sd).
  split; [|split; [reflexivity|split; [|split]]].
  - rewrite (checkpoint_state_dict_wrapper _ _ _ Hget). simpl py_items. cbv beta iota delta [bind].
    rewrite (strip_prefix_kept "model" sd []); auto.
    simpl. now apply (kept_entries_wf "model.").
  - intros k v. now rewrite kept_entries_get.
  - apply kept_keys_in.
  - now apply kept_entries_wf.
Qed.

Lemma state_dict_wrapper_keeps_model_entries_witness :
  checkpoint_state_dict "model.ckpt"
    (PyDict [(KStr "state_dict",
              PyDict [(KStr "model.linear.weight", PyTensor (Tensor [2; 3] [1; 2; 3; 4; 5; 6]%Z));
                      (KStr "other.x", PyInt 7)]);
             (KStr "epoch", PyInt 12)])
  = Ok (PyDict [(KStr "linear.weight", PyTensor (Tensor [2; 3] [1; 2; 3; 4; 5; 6]%Z))]).
Proof.
  destruct (state_dict_wrapper_keeps_model_entries "model.ckpt"
              [(KStr "state_dict",
                PyDict [(KStr "model.linear.weight", PyTensor (Tensor [2; 3] [1; 2; 3; 4; 5; 6]%Z));
                        (KStr "other.x", PyInt 7)]);
               (KStr "epoch", PyInt 12)]
              [(KStr "model.linear.weight", PyTensor (Tensor [2; 3] [1; 2; 3; 4; 5; 6]%Z));
               (KStr "other.x", PyInt 7)])
    as (out & Hout & Heq & _).
  - reflexivity.
  - repeat constructor; simpl; intuition discriminate.
  - reflexivity.
  - rewrite Hout, Heq. reflexivity.
Defined.

(** The chain of the source takes the branch of the first shape that matches. *)
Lemma checkpoint_state_dict_first_match (model_path : string) (ckpt : pyobj) :
  checkpoint_state_dict model_path ckpt = extract model_path (classify ckpt) ckpt.
Proof.
  destruct ckpt as [| | | | | | |d]; try reflexivity.
  unfold checkpoint_state_dict, classify, priority, find, shape_matches.
  cbn [is_dict py_in py_getitem andb].
  unfold dict_contains, dict_getitem.
  destruct (dict_get (KStr "state_dict") d) as [v|] eqn:Esd; cbn [extract].
  - unfold py_getitem, dict_getitem. now rewrite Esd.
  - destruct (dict_get (KStr "model") d) as [v|] eqn:Em; cbn [extract].
    + destruct (is_dict v); cbn [extract]; [|reflexivity].
      unfold py_getitem, dict_getitem. now rewrite Em.
    + reflexivity.
Qed.

(** C2: the shape is the first of (i) 'state_dict' wrapper, (ii) 'model'
    wrapper, (iii) raw mapping whose predicate matches, and the loader
    extracts what that shape alone prescribes; a mapping holding both a
    'state_dict' and a 'model' key is shape (i), whatever the other two
    predicates say, and is extracted as shape (i). *)
Theorem classification_priority (model_path : string) (ckpt : pyobj) :
  classify ckpt
    = match find (fun sh => shape_matches sh ckpt)
                 [StateDictWrapper; ModelWrapper; RawMapping] with
      | Some sh => sh
      | None => Unsupported
      end
  /\ checkpoint_state_dict model_path ckpt = extract model_path (classify ckpt) ckpt
  /\ (forall d : pydict,
        ckpt = PyDict d ->
        dict_contains (KStr "state_dict") d = true ->
        dict_contains (KStr "model") d = true ->
        classify ckpt = StateDictWrapper
        /\ shape_matches RawMapping ckpt = true
        /\ checkpoint_state_dict model_path ckpt
           = extract model_path StateDictWrapper ckpt).
Proof.
  split; [reflexivity|]. split; [apply checkpoint_state_dict_first_match|].
  intros d -> Hsd _.
  assert (Hc : classify (PyDict d) = StateDictWrapper).
  { unfold classify, priority, find, shape_matches. cbn [is_dict py_in andb].
    now rewrite Hsd. }
  split; [exact Hc|]. split; [reflexivity|].
  now rewrite checkpoint_state_dict_first_match, Hc.
Qed.

(** A wrapper holding both keys, where the three shapes would extract three
    different mappings: the result is that of shape (i). *)
Lemma classification_priority_witness :
  let W := PyTensor (Tensor [1] [1%Z]) in
  let V := PyTensor (Tensor [1] [2%Z]) in
  let ckpt := PyDict [(KStr "model", PyDict [(KStr "w", V)]);
                      (KStr "state_dict", PyDict [(KStr "model.w", W)])] in
  classify ckpt = StateDictWrapper
  /\ shape_matches ModelWrapper ckpt = true
  /\ checkpoint_state_dict "m.ckpt" ckpt = Ok (PyDict [(KStr "w", W)])
  /\ extract "m.ckpt" ModelWrapper ckpt = Ok (PyDict [(KStr "w", V)])
  /\ extract "m.ckpt" RawMapping ckpt = Ok ckpt.
Proof.
  intros W V ckpt.
  destruct (classification_priority "m.ckpt" ckpt) as (_ & _ & H).
  destruct (H _ eq_refl eq_refl eq_refl) as (Hc & _ & He).
  split; [exact Hc|]. split; [reflexivity|]. split; [rewrite He; reflexivity|].
  split; reflexivity.
Defined.

(** C10: a mapping without 'state_dict' whose 'model' entry is not itself a
    mapping is shape (iii): the whole mapping, 'model' entry included, is the
    raw parameter mapping; it is neither unwrapped nor rejected. *)
Theorem non_mapping_model_entry_is_raw (model_path : string) (d : pydict) (v : pyobj) :
  dict_contains (KStr "state_dict") d = false ->
  dict_get (KStr "model") d = Some v ->
  is_dict v = false ->
  classify (PyDict d) = RawMapping
  /\ checkpoint_state_dict model_path (PyDict d) = Ok (PyDict d)
  /\ py_getitem (PyDict d) (KStr "model") = Ok v.
Proof.
  intros Hsd Hm Hv.
  assert (Hc : classify (PyDict d) = RawMapping).
  { unfold classify, priority, find, shape_matches. cbn [is_dict py_in andb].
    now rewrite Hsd, Hm, Hv. }
  split; [exact Hc|]. split.
  - now rewrite checkpoint_state_dict_first_match, Hc.
  - unfold py_getitem, dict_getitem. now rewrite Hm.
Qed.

Lemma non_mapping_model_entry_is_raw_witness :
  let ckpt := [(KStr "model", PyTensor (Tensor [2] [3; 4]%Z));
               (KStr "bias", PyTensor (Tensor [1] [5%Z]))] in
  checkpoint_state_dict "m.ckpt" (PyDict ckpt) = Ok (PyDict ckpt).
Proof.
  intros ckpt.
  exact (proj1 (proj2 (non_mapping_model_entry_is_raw "m.ckpt" ckpt
                         (PyTensor (Tensor [2] [3; 4]%Z)) eq_refl eq_refl eq_refl))).
Defined.

(** ** The model builder *)

Section StrictLoading.

Lemma str_keys_ok (sd : pydict) :
  str_keyed sd = true ->
  exists keys, str_keys sd = Ok keys
               /\ forall k, In k keys <-> In (KStr k) (dict_keys sd).
Proof.
  induction sd as [|[k v] sd IH]; simpl; intros H.
  - exists []. split; [reflexivity|]. simpl. tauto.
  - apply andb_prop in H as [Hk H]. destruct k as [s|z|b]; [|discriminate..].
    destruct (IH H) as (keys & -> & Hkeys). exists (s :: keys).
    split; [reflexivity|]. intros k. simpl. rewrite Hkeys.
    split; (intros [Heq|Hin]; [left; congruence|now right]).
Qed.

Lemma keys_message_names (what : string) (keys : list string) (k : string) :
  In k keys ->
  exists msg, In msg (keys_message what keys) /\ contains msg (quoted k).
Proof.
  intros Hin. destruct keys as [|k0 keys]; [contradiction|].
  eexists. split; [left; reflexivity|].
  apply contains_app_r, contains_app_r, contains_app_l, contains_join.
  now apply in_map.
Qed.

Lemma missing_keys_in (m : nn_module) (sd : pydict) (k : string) :
  In k (missing_keys m sd) <-> In k (declared_keys m) /\ ~ In (KStr k) (dict_keys sd).
Proof.
  unfold missing_keys. rewrite filter_In, negb_true_iff, <- dict_contains_in.
  now rewrite not_true_iff_false.
Qed.

Lemma unexpected_keys_in (m : nn_module) (keys : list string) (k : string) :
  In k (unexpected_keys m keys) <-> In k keys /\ ~ In k (declared_keys m).
Proof.
  unfold unexpected_keys. rewrite filter_In, negb_true_iff.
  rewrite <- not_true_iff_false, existsb_exists.
  split; intros [Hin Hn]; (split; [exact Hin|]).
  - intros Hd. apply Hn. exists k. split; [exact Hd|apply String.eqb_refl].
  - intros (x & Hx & Heq). apply String.eqb_eq in Heq. now subst.
Qed.

(** Every message collected by a strict load shows up in the error raised. *)
Lemma load_state_dict_strict_raises (m : nn_module) (sd : pydict) (keys : list string)
  (line : string) :
  str_keys sd = Ok keys ->
  In line (keys_message "Missing" (missing_keys m sd)
             ++ keys_message "Unexpected" (unexpected_keys m keys))%list ->
  exists msg, load_state_dict m (PyDict sd) true = Raise (RuntimeError msg)
              /\ forall l, In l (keys_message "Missing" (missing_keys m sd)
                                   ++ keys_message "Unexpected" (unexpected_keys m keys))%list
                           -> contains msg l.
Proof.
  intros Hkeys Hline. unfold load_state_dict. rewrite Hkeys. cbn [bind].
  remember (keys_message "Missing" (missing_keys m sd)
              ++ keys_message "Unexpected" (unexpected_keys m keys)
              ++ copy_errors (state m) sd)%list as msgs eqn:E.
  assert (Hsub : forall l, In l (keys_message "Missing" (missing_keys m sd)
                                   ++ keys_message "Unexpected" (unexpected_keys m keys))%list
                           -> In l msgs).
  { intros l Hl. subst msgs. rewrite app_assoc. apply in_or_app. now left. }
  clear E. destruct msgs as [|l0 more]; [destruct (Hsub _ Hline)|].
  eexists. split; [reflexivity|]. intros l Hl.
  do 4 apply contains_app_r. apply contains_join, Hsub, Hl.
Qed.

Lemma load_state_dict_mismatch (m : nn_module) (sd : pydict) :
  str_keyed sd = true ->
  (exists k, In k (declared_keys m) /\ ~ In (KStr k) (dict_keys sd))
  \/ (exists k, In (KStr k) (dict_keys sd) /\ ~ In k (declared_keys m)) ->
  exists msg,
    load_state_dict m (PyDict sd) true = Raise (RuntimeError msg)
    /\ (forall k, In k (declared_keys m) -> ~ In (KStr k) (dict_keys sd) ->
                  contains msg (quoted k))
    /\ (forall k, In (KStr k) (dict_keys sd) -> ~ In k (declared_keys m) ->
                  contains msg (quoted k)).
Proof.
  intros Hstr Hbad. destruct (str_keys_ok sd Hstr) as (keys & Hkeys & Hin).
  assert (Hmiss : forall k, In k (declared_keys m) -> ~ In (KStr k) (dict_keys sd) ->
            exists l, In l (keys_message "Missing" (missing_keys m sd)
                              ++ keys_message "Unexpected" (unexpected_keys m keys))%list
                      /\ contains l (quoted k)).
  { intros k Hd Hn.
    destruct (keys_message_names "Missing" (missing_keys m sd) k) as (l & Hl & Hc).
    - now apply missing_keys_in.
    - exists l. split; [apply in_or_app; now left|exact Hc]. }
  assert (Hunex : forall k, In (KStr k) (dict_keys sd) -> ~ In k (declared_keys m) ->
            exists l, In l (keys_message "Missing" (missing_keys m sd)
                              ++ keys_message "Unexpected" (unexpected_keys m keys))%list
                      /\ contains l (quoted k)).
  { intros k Hk Hn.
    destruct (keys_message_names "Unexpected" (unexpected_keys m keys) k) as (l & Hl & Hc).
    - apply unexpected_keys_in. split; [now apply Hin|exact Hn].
    - exists l. split; [apply in_or_app; now right|exact Hc]. }
  assert (Hline : exists line,
             In line (keys_message "Missing" (missing_keys m sd)
                        ++ keys_message "Unexpected" (unexpected_keys m keys))%list).
  { destruct Hbad as [(k & Hd & Hn)|(k & Hk & Hn)].
    - destruct (Hmiss k Hd Hn) as (l & Hl & _). now exists l.
    - destruct (Hunex k Hk Hn) as (l & Hl & _). now exists l. }
  destruct Hline as (line & Hline).
  destruct (load_state_dict_strict_raises m sd keys line Hkeys Hline) as (msg & Hload & Hall).
  exists msg. split; [exact Hload|]. split.
  - intros k Hd Hn. destruct (Hmiss k Hd Hn) as (l & Hl & Hc).
    eapply contains_trans; [apply Hall, Hl|exact Hc].
  - intros k Hk Hn. destruct (Hunex k Hk Hn) as (l & Hl & Hc).
    eapply contains_trans; [apply Hall, Hl|exact Hc].
Qed.

End StrictLoading.

Section Builder.

Variable build_object_from_class_name : pyobj -> pydict -> res nn_module.
Variable torch_load : string -> string -> res pyobj.

Variables (cfg : pydict) (model_path device : string).
Variables (model_cls : pyobj) (m : nn_module) (ckpt : pyobj).

Hypothesis config_names_class : dict_get (KStr "model_cls") cfg = Some model_cls.
Hypothesis class_resolves : build_object_from_class_name model_cls cfg = Ok m.
Hypothesis artifact_loads : torch_load model_path device = Ok ckpt.

(** Once the architecture is built and the artifact deserialized, the
    builder's outcome is that of classifying and strictly applying. *)
Lemma build_model_after_load :
  build_model build_object_from_class_name torch_load cfg model_path device
  = match (state_dict <- checkpoint_state_dict model_path ckpt ;;
           load_state_dict (to device (eval m)) state_dict true) with
    | Ok model => ([loaded_message model_path], Ok model)
    | Raise e => ([], Raise e)
    end.
Proof.
  unfold build_model, dict_getitem.
  rewrite config_names_class. cbn [bind].
  rewrite class_resolves. cbn [bind].
  now rewrite artifact_loads.
Qed.

End Builder.

(** C3: when the deserialized artifact is not a mapping, building the model
    fails with the unsupported-format error, a [RuntimeError] whose message
    is 'Unsupported checkpoint format at ' followed by the checkpoint path;
    nothing is printed and no model is returned. *)
Theorem non_mapping_checkpoint_is_unsupported
  (build_object_from_class_name : pyobj -> pydict -> res nn_module)
  (torch_load : string -> string -> res pyobj)
  (cfg : pydict) (model_path device : string)
  (model_cls : pyobj) (m : nn_module) (ckpt : pyobj) :
  dict_get (KStr "model_cls") cfg = Some model_cls ->
  build_object_from_class_name model_cls cfg = Ok m ->
  torch_load model_path device = Ok ckpt ->
  is_dict ckpt = false ->
  checkpoint_state_dict model_path ckpt
    = Raise (RuntimeError ("Unsupported checkpoint format at " ++ model_path))
  /\ build_model build_object_from_class_name torch_load cfg model_path device
     = ([], Raise (RuntimeError ("Unsupported checkpoint format at " ++ model_path)))
  /\ contains ("Unsupported checkpoint format at " ++ model_path) model_path.
Proof.
  intros Hcls Hres Hload Hnd.
  assert (Hck : checkpoint_state_dict model_path ckpt
                = Raise (RuntimeError ("Unsupported checkpoint format at " ++ model_path))).
  { unfold checkpoint_state_dict. now rewrite Hnd. }
  split; [exact Hck|]. split.
  - rewrite (build_model_after_load _ _ _ _ _ _ _ _ Hcls Hres Hload), Hck. reflexivity.
  - apply contains_app_r, contains_refl.
Qed.

Lemma non_mapping_checkpoint_is_unsupported_witness :
  build_model (fun _ _ => Ok (NNModule "Net" [("w", Tensor [1] [0%Z])] true "cpu"))
              (fun _ _ => Ok (PyList [PyTensor (Tensor [1] [1%Z])]))
              [(KStr "model_cls", PyStr "modules.Net")] "ckpt/model.pt" "cpu"
  = ([], Raise (RuntimeError "Unsupported checkpoint format at ckpt/model.pt")).
Proof.
  exact (proj1 (proj2 (non_mapping_checkpoint_is_unsupported
                         (fun _ _ => Ok (NNModule "Net" [("w", Tensor [1] [0%Z])] true "cpu"))
                         (fun _ _ => Ok (PyList [PyTensor (Tensor [1] [1%Z])]))
                         [(KStr "model_cls", PyStr "modules.Net")] "ckpt/model.pt" "cpu"
                         (PyStr "modules.Net")
                         (NNModule "Net" [("w", Tensor [1] [0%Z])] true "cpu")
                         (PyList [PyTensor (Tensor [1] [1%Z])])
                         eq_refl eq_refl eq_refl eq_refl))).
Defined.

(** C4: the extracted mapping is applied strictly.  If the architecture
    declares a parameter the mapping lacks, or the mapping holds an entry the
    architecture does not declare, construction fails with the mismatch
    error, whose message quotes every missing and every unexpected key;
    nothing is printed and no model is returned. *)
Theorem strict_application_rejects_mismatch
  (build_object_from_class_name : pyobj -> pydict -> res nn_module)
  (torch_load : string -> string -> res pyobj)
  (cfg : pydict) (model_path device : string)
  (model_cls : pyobj) (m : nn_module) (ckpt : pyobj) (sd : pydict) :
  dict_get (KStr "model_cls") cfg = Some model_cls ->
  build_object_from_class_name model_cls cfg = Ok m ->
  torch_load model_path device = Ok ckpt ->
  checkpoint_state_dict model_path ckpt = Ok (PyDict sd) ->
  str_keyed sd = true ->
  (exists k, In k (declared_keys m) /\ ~ In (KStr k) (dict_keys sd))
  \/ (exists k, In (KStr k) (dict_keys sd) /\ ~ In k (declared_keys m)) ->
  exists msg,
    build_model build_object_from_class_name torch_load cfg model_path device
      = ([], Raise (RuntimeError msg))
    /\ (forall k, In k (declared_keys m) -> ~ In (KStr k) (dict_keys sd) ->
                  contains msg (quoted k))
    /\ (forall k, In (KStr k) (dict_keys sd) -> ~ In k (declared_keys m) ->
                  contains msg (quoted k)).
Proof.
  intros Hcls Hres Hload Hck Hstr Hbad.
  destruct (load_state_dict_mismatch (to device (eval m)) sd Hstr Hbad)
    as (msg & Hraise & Hmiss & Hunex).
  exists msg. split; [|split; assumption].
  rewrite (build_model_after_load _ _ _ _ _ _ _ _ Hcls Hres Hload), Hck.
  cbn [bind]. now rewrite Hraise.
Qed.

(** The architecture expects "a.b", the raw checkpoint holds "a.c" only. *)
Lemma strict_application_rejects_mismatch_witness :
  exists msg,
    build_model (fun _ _ => Ok (NNModule "Net" [("a.b", Tensor [1] [0%Z])] true "cpu"))
                (fun _ _ => Ok (PyDict [(KStr "a.c", PyTensor (Tensor [1] [1%Z]))]))
                [(KStr "model_cls", PyStr "modules.Net")] "model.pt" "cpu"
      = ([], Raise (RuntimeError msg))
    /\ contains msg (quoted "a.b")
    /\ contains msg (quoted "a.c").
Proof.
  destruct (strict_application_rejects_mismatch
              (fun _ _ => Ok (NNModule "Net" [("a.b", Tensor [1] [0%Z])] true "cpu"))
              (fun _ _ => Ok (PyDict [(KStr "a.c", PyTensor (Tensor [1] [1%Z]))]))
              [(KStr "model_cls", PyStr "modules.Net")] "model.pt" "cpu"
              (PyStr "modules.Net")
              (NNModule "Net" [("a.b", Tensor [1] [0%Z])] true "cpu")
              (PyDict [(KStr "a.c", PyTensor (Tensor [1] [1%Z]))])
              [(KStr "a.c", PyTensor (Tensor [1] [1%Z]))]
              eq_refl eq_refl eq_refl eq_refl eq_refl)
    as (msg & Hb & Hmiss & Hunex).
  - left. exists "a.b". split; [left; reflexivity|].
    simpl. intros [H|[]]. discriminate H.
  - exists msg. split; [exact Hb|]. split.
    + apply Hmiss; [left; reflexivity|]. simpl. intros [H|[]]. discriminate H.
    + apply Hunex; [left; reflexivity|]. simpl. intros [H|[]]. discriminate H.
Defined.

Lemma strip_prefix_none (p : string) (items acc : pydict) :
  (forall k, In k (dict_keys items) ->
             exists s, k = KStr s /\ startswith (p ++ ".") s = false) ->
  strip_prefix p items acc = Ok acc.
Proof.
  induction items as [|[k v] items IH]; intros H; simpl; [reflexivity|].
  destruct (H k) as (s & -> & Hs); [now left|].
  rewrite Hs. apply IH. intros k Hk. apply H. now right.
Qed.

(** An architecture with at least one declared entry rejects the empty
    mapping, naming each declared key. *)
Lemma strict_mismatch_of_empty (m : nn_module) (device : string) :
  state m <> [] ->
  exists msg,
    load_state_dict (to device (eval m)) (PyDict []) true = Raise (RuntimeError msg)
    /\ forall k, In k (declared_keys m) -> contains msg (quoted k).
Proof.
  intros Hdecl.
  destruct (load_state_dict_mismatch (to device (eval m)) [] eq_refl) as (msg & Hr & Hmiss & _).
  - left. destruct (state m) as [|[k t] rest] eqn:E; [contradiction|].
    exists k. split; [|simpl; tauto].
    unfold declared_keys. simpl. rewrite E. now left.
  - exists msg. split; [exact Hr|]. intros k Hk. apply Hmiss; [exact Hk|simpl; tauto].
Qed.

(** C9: shape (i) is chosen on the presence of the 'state_dict' key alone.
    When no key of the nested mapping starts with 'model.', the loader still
    answers as shape (i), with the empty parameter mapping, and the strict
    application then fails for an architecture that declares at least one
    parameter, naming every declared key as missing. *)
Theorem state_dict_wrapper_without_model_entries
  (build_object_from_class_name : pyobj -> pydict -> res nn_module)
  (torch_load : string -> string -> res pyobj)
  (cfg : pydict) (model_path device : string)
  (model_cls : pyobj) (m : nn_module) (d sd : pydict) :
  dict_get (KStr "model_cls") cfg = Some model_cls ->
  build_object_from_class_name model_cls cfg = Ok m ->
  torch_load model_path device = Ok (PyDict d) ->
  dict_get (KStr "state_dict") d = Some (PyDict sd) ->
  (forall k, In k (dict_keys sd) ->
             exists s, k = KStr s /\ startswith "model." s = false) ->
  state m <> [] ->
  classify (PyDict d) = StateDictWrapper
  /\ checkpoint_state_dict model_path (PyDict d) = Ok (PyDict [])
  /\ exists msg,
       build_model build_object_from_class_name torch_load cfg model_path device
         = ([], Raise (RuntimeError msg))
       /\ forall k, In k (declared_keys m) -> contains msg (quoted k).
Proof.
  intros Hcls Hres Hload Hsd Hkeys Hdecl.
  assert (Hck : checkpoint_state_dict model_path (PyDict d) = Ok (PyDict [])).
  { rewrite (checkpoint_state_dict_wrapper _ _ _ Hsd). cbn [py_items bind].
    now rewrite (strip_prefix_none "model" sd [] Hkeys). }
  split; [|split; [exact Hck|]].
  - unfold classify, priority, find, shape_matches. cbn [is_dict py_in andb].
    unfold dict_contains. now rewrite Hsd.
  - destruct (strict_mismatch_of_empty m device Hdecl) as (msg & Hraise & Hall).
    exists msg. split; [|exact Hall].
    rewrite (build_model_after_load _ _ _ _ _ _ _ _ Hcls Hres Hload), Hck.
    cbn [bind]. now rewrite Hraise.
Qed.

(** A 'state_dict' wrapper whose entries sit under another prefix. *)
Lemma state_dict_wrapper_without_model_entries_witness :
  let ckpt := [(KStr "state_dict", PyDict [(KStr "encoder.w", PyTensor (Tensor [1] [1%Z]))])] in
  checkpoint_state_dict "model.pt" (PyDict ckpt) = Ok (PyDict [])
  /\ exists msg,
       build_model (fun _ _ => Ok (NNModule "Net" [("w", Tensor [1] [0%Z])] true "cpu"))
                   (fun _ _ => Ok (PyDict ckpt))
                   [(KStr "model_cls", PyStr "modules.Net")] "model.pt" "cpu"
         = ([], Raise (RuntimeError msg))
       /\ contains msg (quoted "w").
Proof.
  intros ckpt.
  destruct (state_dict_wrapper_without_model_entries
              (fun _ _ => Ok (NNModule "Net" [("w", Tensor [1] [0%Z])] true "cpu"))
              (fun _ _ => Ok (PyDict ckpt))
              [(KStr "model_cls", PyStr "modules.Net")] "model.pt" "cpu"
              (PyStr "modules.Net")
              (NNModule "Net" [("w", Tensor [1] [0%Z])] true "cpu")
              ckpt [(KStr "encoder.w", PyTensor (Tensor [1] [1%Z]))]
              eq_refl eq_refl eq_refl eq_refl)
    as (_ & Hck & msg & Hb & Hall).
  - intros k [<-|[]]. exists "encoder.w". split; reflexivity.
  - discriminate.
  - split; [exact Hck|]. exists msg. split; [exact Hb|].
    apply Hall. left. reflexivity.
Defined.

(** ** The driving loop *)

Section Loop.

Context {world : Type}.
Variable self : stages world.

(** The loop is the body for the first waveform followed by the loop on the
    others. *)
Lemma infer_loop_cons (w : pyobj) (rest results : list pyobj) (s : world) :
  infer_loop self (w :: rest) results s
  = match infer_item self w s with
    | (s', Ok r) => infer_loop self rest (results ++ [r])%list s'
    | (s', Raise e) => (s', Raise e)
    end.
Proof.
  cbn [infer_loop]. unfold infer_item, and_then.
  destruct (preprocess self w s) as [s1 [x|e]]; [|reflexivity].
  destruct (forward_model self x s1) as [s2 [y|e]]; [|reflexivity].
  destruct (postprocess self y s2) as [s3 [r|e]]; reflexivity.
Qed.

Lemma run_items_length (s s' : world) (ws rs : list pyobj) :
  run_items self s ws s' rs -> List.length rs = List.length ws.
Proof. induction 1; simpl; congruence. Qed.


Lemma infer_loop_run (s s' : world) (ws rs : list pyobj) :
  run_items self s ws s' rs ->
  forall results, infer_loop self ws results s = (s', Ok (results ++ rs)%list).
Proof.
  induction 1 as [|s s1 s2 w r ws rs Hitem Hrun IH]; intros results.
  - simpl. unfold ret. now rewrite app_nil_r.
  - rewrite infer_loop_cons, Hitem, IH. now rewrite <- app_assoc.
Qed.

Lemma infer_loop_returns (ws : list pyobj) :
  forall results s s' out,
    infer_loop self ws results s = (s', Ok out) ->
    exists rs, out = (results ++ rs)%list /\ run_items self s ws s' rs.
Proof.
  induction ws as [|w ws IH]; intros results s s' out H.
  - simpl in H. unfold ret in H. injection H as <- <-.
    exists []. split; [now rewrite app_nil_r|constructor].
  - rewrite infer_loop_cons in H.
    destruct (infer_item self w s) as [s1 [r|e]] eqn:E; [|discriminate].
    destruct (IH _ _ _ _ H) as (rs & -> & Hrun).
    exists (r :: rs). split; [now rewrite <- app_assoc|].
    econstructor; eassumption.
Qed.

(** A failing item ends the loop where it failed. *)
Lemma infer_loop_aborts (s s1 s2 : world) (done : list pyobj) (rs : list pyobj)
  (w : pyobj) (e : exn) :
  run_items self s done s1 rs ->
  infer_item self w s1 = (s2, Raise e) ->
  forall rest results,
    infer_loop self (done ++ w :: rest)%list results s = (s2, Raise e).
Proof.
  induction 1 as [|s s1 s1' w0 r0 ws rs Hitem Hrun IH]; intros Hfail rest results.
  - simpl app. now rewrite infer_loop_cons, Hfail.
  - simpl app. rewrite infer_loop_cons, Hitem. now apply IH.
Qed.


End Loop.

(** *** The stage calls a run makes *)

Section Calls.

Context {world : Type}.
Variable self : stages world.

Lemma preprocess_calls_app (l1 l2 : list stage_call) :
  preprocess_calls (l1 ++ l2) = preprocess_calls l1 + preprocess_calls l2.
Proof. unfold preprocess_calls. now rewrite filter_app, List.length_app. Qed.

Lemma preprocess_calls_item (w : pyobj) (s : world) :
  preprocess_calls (item_calls self w s) = 1.
Proof.
  unfold item_calls.
  destruct (preprocess self w s) as [s1 [x|e]]; [|reflexivity].
  destruct (forward_model self x s1) as [s2 [y|e]]; reflexivity.
Qed.

(** The traced body does what the body does and logs its calls. *)
Lemma traced_item (w : pyobj) (s : world) (log : list stage_call) :
  infer_item (traced self) w (s, log)
  = ((fst (infer_item self w s), (log ++ item_calls self w s)%list), snd (infer_item self w s)).
Proof.
  unfold infer_item, item_calls, and_then, traced, logged. cbn [preprocess forward_model postprocess].
  destruct (preprocess self w s) as [s1 [x|e]]; [|reflexivity].
  destruct (forward_model self x s1) as [s2 [y|e]]; cbn [fst snd].
  - destruct (postprocess self y s2) as [s3 r]. cbn [fst snd].
    now rewrite <- !app_assoc.
  - now rewrite <- app_assoc.
Qed.

Lemma traced_run_items (s s' : world) (ws rs : list pyobj) :
  run_items self s ws s' rs ->
  forall log, exists log',
    run_items (traced self) (s, log) ws (s', (log ++ log')%list) rs
    /\ preprocess_calls log' = List.length ws.
Proof.
  induction 1 as [|s s1 s2 w r ws rs Hitem Hrun IH]; intros log.
  - exists []. rewrite app_nil_r. split; [constructor|reflexivity].
  - destruct (IH (log ++ item_calls self w s)%list) as (log' & Hrun' & Hcount).
    exists (item_calls self w s ++ log')%list. split.
    + econstructor.
      * rewrite traced_item, Hitem. reflexivity.
      * now rewrite app_assoc.
    + rewrite preprocess_calls_app, preprocess_calls_item, Hcount. reflexivity.
Qed.

End Calls.

(** C8: on the empty input [infer] returns the empty list and leaves the
    world as it was, whatever the stages would do; run with the stage calls
    recorded, it records none. *)
Theorem infer_empty_input {world : Type} (self : stages world) (s : world) :
  infer self [] s = (s, Ok [])
  /\ forall log, infer (traced self) [] (s, log) = ((s, log), Ok []).
Proof. split; reflexivity. Qed.

(** C5: [infer] is all-or-nothing.  When the waveforms before [w] went
    through and one of the three stages raises for [w], the call ends with
    that exception, at the state the failing stage left: no list is
    returned, whatever follows [w] in the input is never looked at (the call
    is the same as if [w] were last), and the recorded calls hold one
    [preprocess] per waveform up to [w] and none after. *)
Theorem infer_all_or_nothing {world : Type} (self : stages world)
  (s s1 s2 : world) (done rs : list pyobj) (w : pyobj) (e : exn) (rest : list pyobj) :
  run_items self s done s1 rs ->
  infer_item self w s1 = (s2, Raise e) ->
  infer self (done ++ w :: rest)%list s = (s2, Raise e)
  /\ infer self (done ++ w :: rest)%list s = infer self (done ++ [w])%list s
  /\ exists log,
       infer (traced self) (done ++ w :: rest)%list (s, []) = ((s2, log), Raise e)
       /\ preprocess_calls log = List.length done + 1.
Proof.
  intros Hrun Hfail.
  assert (H : forall rest', infer self (done ++ w :: rest')%list s = (s2, Raise e)).
  { intros rest'. unfold infer. eapply infer_loop_aborts; eassumption. }
  split; [apply H|]. split; [now rewrite !H|].
  destruct (traced_run_items self _ _ _ _ Hrun []) as (log' & Hrun' & Hcount).
  exists (log' ++ item_calls self w s1)%list. split.
  - unfold infer. eapply infer_loop_aborts; [exact Hrun'|].
    rewrite traced_item, Hfail. reflexivity.
  - rewrite preprocess_calls_app, preprocess_calls_item, Hcount. reflexivity.
Qed.

Lemma infer_all_or_nothing_witness :
  infer counting_stages
    [PyArray (Tensor [2] [1; 2]%Z); PyNone; PyArray (Tensor [2] [3; 4]%Z)] 0
  = (4, Raise (TypeError "expected an array")).
Proof.
  refine (proj1 (infer_all_or_nothing counting_stages 0 3 4
                   [PyArray (Tensor [2] [1; 2]%Z)]
                   [PyDict [(KStr "note_midi", PyArray (Tensor [2] [1; 2]%Z))]]
                   PyNone (TypeError "expected an array")
                   [PyArray (Tensor [2] [3; 4]%Z)] _ eq_refl)).
  eapply run_items_cons; [reflexivity|apply run_items_nil].
Defined.





(** The entries need not be mappings: with a [postprocess] that returns what
    its signature declares, a list of channel mappings, every entry of the
    list [infer] returns is a list. *)
Lemma infer_entry_need_not_be_mapping :
  infer annotated_stages [PyArray (Tensor [2] [1; 2]%Z)] 0
  = (3, Ok [PyList [PyDict [(KStr "note_midi", PyArray (Tensor [2] [1; 2]%Z))]]])
  /\ run_items annotated_stages 0 [PyArray (Tensor [2] [1; 2]%Z)] 3
       [PyList [PyDict [(KStr "note_midi", PyArray (Tensor [2] [1; 2]%Z))]]]
  /\ is_dict (PyList [PyDict [(KStr "note_midi", PyArray (Tensor [2] [1; 2]%Z))]]) = false
  /\ is_channel_mapping
       (PyList [PyDict [(KStr "note_midi", PyArray (Tensor [2] [1; 2]%Z))]]) = false
  /\ ~ (forall (world : Type) (self : stages world) (s s' : world) (ws rs : list pyobj),
          run_items self s ws s' rs ->
          Forall (fun r => is_channel_mapping r = true) rs).
Proof.
  assert (Hrun : run_items annotated_stages 0 [PyArray (Tensor [2] [1; 2]%Z)] 3
                   [PyList [PyDict [(KStr "note_midi", PyArray (Tensor [2] [1; 2]%Z))]]]).
  { eapply run_items_cons; [reflexivity|apply run_items_nil]. }
  split; [reflexivity|]. split; [exact Hrun|]. split; [reflexivity|].
  split; [reflexivity|].
  intros H. specialize (H _ _ _ _ _ _ Hrun).
  inversion H as [|? ? Hhead _]. discriminate Hhead.
Qed.

(** With the base class itself every stage is unimplemented: a non-empty
    input raises at the first [preprocess]. *)
Example infer_base_class (w : pyobj) (rest : list pyobj) (s : unit) :
  infer base_stages (w :: rest) s = (s, Raise NotImplementedError).
Proof. reflexivity. Qed.

(** ** The per-frame duration is fixed at construction *)






(** * Further properties of the code *)

(** ** Checkpoint layouts *)

Section Layouts.

Variable sd : list (string * pyobj).
Hypothesis names_unique : NoDup (map fst sd).

Lemma named_entries_keys_in (k : string) :
  In (KStr k) (dict_keys (named_entries sd)) <-> In k (map fst sd).
Proof.
  unfold dict_keys, named_entries. rewrite map_map. simpl.
  rewrite !in_map_iff. split.
  - intros ([k0 v] & Heq & Hin). injection Heq as <-. now exists (k0, v).
  - intros ([k0 v] & <- & Hin). now exists (k0, v).
Qed.

Lemma named_entries_wf : dict_wf (named_entries sd).
Proof.
  unfold dict_wf, dict_keys, named_entries. rewrite map_map. simpl.
  clear -names_unique. induction sd as [|[k v] l IH]; simpl in *; [constructor|].
  inversion names_unique as [|? ? Hnotin Hnd]; subst. constructor; [|now apply IH].
  rewrite in_map_iff. intros ([k0 v0] & Heq & Hin). injection Heq as ->.
  apply Hnotin. apply in_map_iff. now exists (k, v0).
Qed.

Lemma named_entries_str_keyed : str_keyed (named_entries sd) = true.
Proof. clear. induction sd as [|[k v] l IH]; simpl; auto. Qed.

Lemma prefixed_entries_str_keyed (prefix : string) :
  str_keyed (prefixed_entries prefix sd) = true.
Proof. clear. induction sd as [|[k v] l IH]; simpl; auto. Qed.

Lemma kept_prefixed_entries (prefix : string) :
  kept_entries prefix (prefixed_entries prefix sd) = named_entries sd.
Proof.
  clear. induction sd as [|[k v] l IH]; simpl; [reflexivity|].
  rewrite startswith_app, slice_from_app. simpl. f_equal. exact IH.
Qed.

Lemma strip_prefixed_entries :
  strip_prefix "model" (prefixed_entries "model." sd) [] = Ok (named_entries sd).
Proof.
  rewrite (strip_prefix_kept "model" _ []).
  - simpl. now rewrite (kept_prefixed_entries "model.").
  - apply prefixed_entries_str_keyed.
  - simpl. change ("model" ++ ".") with "model.". rewrite kept_prefixed_entries.
    apply named_entries_wf.
Qed.

End Layouts.

(** X1: writing a parameter mapping under 'state_dict' with every name
    prefixed by 'model.' and loading it gives the mapping back, entry for
    entry and in order, whatever else the checkpoint holds. *)
Theorem prefixed_state_dict_round_trip
  (model_path : string) (d : pydict) (sd : list (string * pyobj)) :
  NoDup (map fst sd) ->
  dict_get (KStr "state_dict") d = Some (PyDict (prefixed_entries "model." sd)) ->
  checkpoint_state_dict model_path (PyDict d) = Ok (PyDict (named_entries sd)).
Proof.
  intros Hnd Hget. rewrite (checkpoint_state_dict_wrapper _ _ _ Hget).
  cbn [py_items bind]. now rewrite (strip_prefixed_entries sd Hnd).
Qed.

Lemma prefixed_state_dict_round_trip_witness :
  checkpoint_state_dict "model.pt"
    (PyDict [(KStr "epoch", PyInt 3);
             (KStr "state_dict",
              PyDict [(KStr "model.enc.w", PyTensor (Tensor [1] [1%Z]));
                      (KStr "model.enc.b", PyTensor (Tensor [1] [2%Z]))])])
  = Ok (PyDict [(KStr "enc.w", PyTensor (Tensor [1] [1%Z]));
                (KStr "enc.b", PyTensor (Tensor [1] [2%Z]))]).
Proof.
  refine (prefixed_state_dict_round_trip "model.pt"
            [(KStr "epoch", PyInt 3);
             (KStr "state_dict",
              PyDict [(KStr "model.enc.w", PyTensor (Tensor [1] [1%Z]));
                      (KStr "model.enc.b", PyTensor (Tensor [1] [2%Z]))])]
            [("enc.w", PyTensor (Tensor [1] [1%Z])); ("enc.b", PyTensor (Tensor [1] [2%Z]))]
            _ eq_refl).
  repeat constructor; simpl; intuition discriminate.
Defined.

Lemma checkpoint_state_dict_model_wrapper (model_path : string) (d inner : pydict) :
  dict_contains (KStr "state_dict") d = false ->
  dict_get (KStr "model") d = Some (PyDict inner) ->
  checkpoint_state_dict model_path (PyDict d) = Ok (PyDict inner).
Proof.
  intros Hsd Hm. rewrite checkpoint_state_dict_first_match.
  unfold classify, priority, find, shape_matches. cbn [is_dict py_in andb].
  rewrite Hsd, Hm. cbn [is_dict extract]. unfold py_getitem, dict_getitem. now rewrite Hm.
Qed.

Lemma checkpoint_state_dict_raw (model_path : string) (d : pydict) :
  dict_contains (KStr "state_dict") d = false ->
  (forall v, dict_get (KStr "model") d = Some v -> is_dict v = false) ->
  checkpoint_state_dict model_path (PyDict d) = Ok (PyDict d).
Proof.
  intros Hsd Hm. rewrite checkpoint_state_dict_first_match.
  unfold classify, priority, find, shape_matches. cbn [is_dict py_in andb].
  rewrite Hsd. destruct (dict_get (KStr "model") d) as [v|]; [|reflexivity].
  now rewrite (Hm v eq_refl).
Qed.

Lemma named_entries_get_in (sd : list (string * pyobj)) (k : string) (v : pyobj) :
  dict_get (KStr k) (named_entries sd) = Some v -> In (k, v) sd.
Proof.
  induction sd as [|[k0 v0] l IH]; simpl; [discriminate|].
  destruct (String.eqb_spec k k0) as [->|_].
  - intros H. injection H as ->. now left.
  - intros H. right. now apply IH.
Qed.

(** X2: the three accepted layouts of one parameter mapping load alike.  For
    a mapping with no entry named 'state_dict' and no dictionary under the
    name 'model', the builder's outcome is the same whether the file holds
    the mapping prefixed under 'state_dict', the mapping under 'model', or
    the mapping itself. *)
Theorem checkpoint_layouts_load_alike
  (build_object_from_class_name : pyobj -> pydict -> res nn_module)
  (load_i load_ii load_iii : string -> string -> res pyobj)
  (cfg : pydict) (model_path device : string)
  (sd : list (string * pyobj)) (d_i d_ii : pydict) :
  NoDup (map fst sd) ->
  ~ In "state_dict" (map fst sd) ->
  (forall v, In ("model", v) sd -> is_dict v = false) ->
  dict_get (KStr "state_dict") d_i = Some (PyDict (prefixed_entries "model." sd)) ->
  dict_contains (KStr "state_dict") d_ii = false ->
  dict_get (KStr "model") d_ii = Some (PyDict (named_entries sd)) ->
  load_i model_path device = Ok (PyDict d_i) ->
  load_ii model_path device = Ok (PyDict d_ii) ->
  load_iii model_path device = Ok (PyDict (named_entries sd)) ->
  checkpoint_state_dict model_path (PyDict d_i) = Ok (PyDict (named_entries sd))
  /\ checkpoint_state_dict model_path (PyDict d_ii) = Ok (PyDict (named_entries sd))
  /\ checkpoint_state_dict model_path (PyDict (named_entries sd))
     = Ok (PyDict (named_entries sd))
  /\ build_model build_object_from_class_name load_i cfg model_path device
     = build_model build_object_from_class_name load_iii cfg model_path device
  /\ build_model build_object_from_class_name load_ii cfg model_path device
     = build_model build_object_from_class_name load_iii cfg model_path device.
Proof.
  intros Hnd Hnosd Hnomodel Hi Hii_sd Hii Hload_i Hload_ii Hload_iii.
  assert (E1 : checkpoint_state_dict model_path (PyDict d_i) = Ok (PyDict (named_entries sd))).
  { rewrite (checkpoint_state_dict_wrapper _ _ _ Hi). cbn [py_items bind].
    now rewrite (strip_prefixed_entries sd Hnd). }
  assert (E2 : checkpoint_state_dict model_path (PyDict d_ii) = Ok (PyDict (named_entries sd)))
    by now apply checkpoint_state_dict_model_wrapper.
  assert (E3 : checkpoint_state_dict model_path (PyDict (named_entries sd))
               = Ok (PyDict (named_entries sd))).
  { apply checkpoint_state_dict_raw.
    - apply not_true_is_false. intros H. apply dict_contains_in in H.
      now apply named_entries_keys_in in H.
    - intros v Hv. apply Hnomodel. now apply named_entries_get_in. }
  repeat split; try assumption.
  - unfold build_model. destruct (dict_getitem (KStr "model_cls") cfg) as [cls|e]; [|reflexivity].
    cbn [bind]. destruct (build_object_from_class_name cls cfg) as [m|e]; [|reflexivity].
    cbn [bind]. now rewrite Hload_i, Hload_iii; cbn [bind]; rewrite E1, E3.
  - unfold build_model. destruct (dict_getitem (KStr "model_cls") cfg) as [cls|e]; [|reflexivity].
    cbn [bind]. destruct (build_object_from_class_name cls cfg) as [m|e]; [|reflexivity].
    cbn [bind]. now rewrite Hload_ii, Hload_iii; cbn [bind]; rewrite E2, E3.
Qed.

Lemma checkpoint_layouts_load_alike_witness :
  let T := PyTensor (Tensor [1] [7%Z]) in
  let net := fun (_ : pyobj) (_ : pydict) => Ok (NNModule "Net" [("w", Tensor [1] [0%Z])] true "cpu") in
  let cfg := [(KStr "model_cls", PyStr "modules.Net")] in
  build_model net
    (fun _ _ => Ok (PyDict [(KStr "state_dict", PyDict [(KStr "model.w", T)])]))
    cfg "model.pt" "cpu"
  = build_model net (fun _ _ => Ok (PyDict [(KStr "w", T)])) cfg "model.pt" "cpu".
Proof.
  intros T net cfg.
  refine (proj1 (proj2 (proj2 (proj2
            (checkpoint_layouts_load_alike net
               (fun _ _ => Ok (PyDict [(KStr "state_dict", PyDict [(KStr "model.w", T)])]))
               (fun _ _ => Ok (PyDict [(KStr "model", PyDict [(KStr "w", T)])]))
               (fun _ _ => Ok (PyDict [(KStr "w", T)]))
               cfg "model.pt" "cpu" [("w", T)]
               [(KStr "state_dict", PyDict [(KStr "model.w", T)])]
               [(KStr "model", PyDict [(KStr "w", T)])]
               _ _ _ eq_refl eq_refl eq_refl eq_refl eq_refl eq_refl))))).
  - repeat constructor; simpl; intuition discriminate.
  - simpl. intros [H|[]]. discriminate H.
  - intros v [H|[]]. discriminate H.
Defined.

Lemma first_non_str_key_none (d : pydict) :
  first_non_str_key d = None <-> str_keyed d = true.
Proof.
  unfold first_non_str_key, str_keyed, dict_keys.
  induction d as [|[k v] d IH]; simpl; [tauto|].
  destruct (is_str_key k); simpl; [exact IH|split; discriminate].
Qed.




(** ** Strict application: when it goes through *)

Section StrictSuccess.

Lemma filter_none {A : Type} (f : A -> bool) (l : list A) :
  (forall x, In x l -> f x = false) <-> filter f l = [].
Proof.
  induction l as [|a l IH]; simpl; [tauto|]. split.
  - intros H. rewrite (H a) by now left. apply IH. intros x Hx. apply H. now right.
  - destruct (f a) eqn:E; [discriminate|]. intros H x [<-|Hx]; [exact E|].
    now apply IH.
Qed.

Lemma keys_message_nil (what : string) (keys : list string) :
  keys_message what keys = [] <-> keys = [].
Proof. destruct keys; simpl; split; congruence. Qed.

Lemma str_keys_inv (sd : pydict) (keys : list string) :
  str_keys sd = Ok keys ->
  str_keyed sd = true /\ forall k, In k keys <-> In (KStr k) (dict_keys sd).
Proof.
  revert keys. induction sd as [|[k v] sd IH]; simpl; intros keys H.
  - injection H as <-. split; [reflexivity|]. simpl. tauto.
  - destruct k as [s|z|b]; [|discriminate..].
    destruct (str_keys sd) as [ks|e]; [|discriminate]. simpl in H. injection H as <-.
    destruct (IH ks eq_refl) as (Hstr & Hin). split; [exact Hstr|].
    intros k. simpl. rewrite Hin.
    split; (intros [Heq|Hk]; [left; congruence|now right]).
Qed.

(** No message is collected exactly when every declared entry that the
    mapping has is a tensor of the declared shape. *)
Lemma copy_errors_nil (declared : list (string * tensor)) (sd : pydict) :
  copy_errors declared sd = [] <->
  (forall k cur v, In (k, cur) declared -> dict_get (KStr k) sd = Some v ->
                   exists t, v = PyTensor t /\ tensor_shape t = tensor_shape cur).
Proof.
  induction declared as [|[k0 cur0] declared IH]; simpl.
  - split; [intros _ k cur v []|reflexivity].
  - destruct (dict_get (KStr k0) sd) as [v0|] eqn:E.
    + assert (Hhead : (exists t, v0 = PyTensor t /\ tensor_shape t = tensor_shape cur0)
                      \/ copy_errors ((k0, cur0) :: declared) sd <> []).
      { simpl. rewrite E. destruct v0; try (right; discriminate).
        destruct (list_eq_dec Nat.eq_dec (tensor_shape t) (tensor_shape cur0));
          [left; now exists t|right; discriminate]. }
      split.
      * intros H k cur v [Heq|Hin] Hget.
        -- injection Heq as <- <-. rewrite E in Hget. injection Hget as <-.
           destruct Hhead as [Ht|Hne]; [exact Ht|].
           exfalso. apply Hne. simpl. rewrite E. exact H.
        -- assert (Hrest : copy_errors declared sd = []).
           { destruct v0; try discriminate.
             destruct (list_eq_dec Nat.eq_dec (tensor_shape t) (tensor_shape cur0));
               [exact H|discriminate]. }
           exact (proj1 IH Hrest k cur v Hin Hget).
      * intros H. destruct (H k0 cur0 v0 (or_introl eq_refl) E) as (t & -> & Hshape).
        destruct (list_eq_dec Nat.eq_dec (tensor_shape t) (tensor_shape cur0));
          [|contradiction].
        apply IH. intros k cur v Hin. apply H. now right.
    + rewrite IH. split.
      * intros H k cur v [Heq|Hin] Hget; [|exact (H k cur v Hin Hget)].
        injection Heq as <- <-. congruence.
      * intros H k cur v Hin. apply H. now right.
Qed.

Lemma copy_state_keys (declared : list (string * tensor)) (sd : pydict) :
  map fst (copy_state declared sd) = map fst declared.
Proof.
  unfold copy_state. rewrite map_map. apply map_ext.
  intros [k cur]. destruct (dict_get (KStr k) sd) as [[]|]; reflexivity.
Qed.

Lemma copy_state_values (declared : list (string * tensor)) (sd : pydict) :
  (forall k cur, In (k, cur) declared -> exists t, dict_get (KStr k) sd = Some (PyTensor t)) ->
  forall k t, In (k, t) (copy_state declared sd) -> dict_get (KStr k) sd = Some (PyTensor t).
Proof.
  intros Hall k t Hin. unfold copy_state in Hin. apply in_map_iff in Hin.
  destruct Hin as ([k0 cur] & Heq & Hin).
  destruct (Hall k0 cur Hin) as (t0 & Hget). rewrite Hget in Heq.
  injection Heq as <- <-. exact Hget.
Qed.

(** The strict load goes through exactly when the keys on both sides are
    the same strings and every entry is a tensor of the declared shape. *)
Lemma load_state_dict_strict_ok (m model : nn_module) (sd : pydict) :
  load_state_dict m (PyDict sd) true = Ok model <->
  str_keyed sd = true
  /\ (forall k, In k (declared_keys m) <-> In (KStr k) (dict_keys sd))
  /\ (forall k cur v, In (k, cur) (state m) -> dict_get (KStr k) sd = Some v ->
                      exists t, v = PyTensor t /\ tensor_shape t = tensor_shape cur)
  /\ model = NNModule (class_name m) (copy_state (state m) sd) (training m) (module_device m).
Proof.
  unfold load_state_dict. split.
  - destruct (str_keys sd) as [keys|e] eqn:Ekeys; [|discriminate]. cbn [bind].
    destruct (str_keys_inv _ _ Ekeys) as (Hstr & Hin).
    destruct (keys_message "Missing" (missing_keys m sd)
                ++ keys_message "Unexpected" (unexpected_keys m keys)
                ++ copy_errors (state m) sd)%list eqn:Emsgs; [|discriminate].
    intros H. injection H as <-.
    apply app_eq_nil in Emsgs as [Emiss Emsgs]. apply app_eq_nil in Emsgs as [Eunex Ecopy].
    apply keys_message_nil in Emiss, Eunex.
    split; [exact Hstr|]. split; [|split; [now apply copy_errors_nil|reflexivity]].
    intros k. split.
    + intros Hk. apply dict_contains_in.
      apply (proj2 (filter_none _ _) Emiss) in Hk. now apply negb_false_iff in Hk.
    + intros Hk. apply Hin in Hk.
      apply (proj2 (filter_none _ _) Eunex) in Hk. apply negb_false_iff in Hk.
      apply existsb_exists in Hk. destruct Hk as (x & Hx & Heq).
      apply String.eqb_eq in Heq. now subst.
  - intros (Hstr & Hkeys & Hvals & ->).
    destruct (str_keys_ok sd Hstr) as (keys & -> & Hin). cbn [bind].
    assert (Emiss : missing_keys m sd = []).
    { apply filter_none. intros k Hk. apply negb_false_iff, dict_contains_in.
      now apply Hkeys. }
    assert (Eunex : unexpected_keys m keys = []).
    { apply filter_none. intros k Hk. apply negb_false_iff, existsb_exists.
      exists k. split; [apply Hkeys, Hin, Hk|apply String.eqb_refl]. }
    rewrite Emiss, Eunex, (proj2 (copy_errors_nil _ _) Hvals). reflexivity.
Qed.

End StrictSuccess.

(** X4: when the extracted mapping has exactly the architecture's keys, each
    bound to a tensor of the declared shape, the builder returns the model:
    same class and keys, every entry now the checkpoint's tensor, in
    inference mode, on the requested device; and it prints the one
    confirmation line naming the path. *)
Theorem build_model_loads_matching_checkpoint
  (build_object_from_class_name : pyobj -> pydict -> res nn_module)
  (torch_load : string -> string -> res pyobj)
  (cfg : pydict) (model_path device : string)
  (model_cls : pyobj) (m : nn_module) (ckpt : pyobj) (sd : pydict) :
  dict_get (KStr "model_cls") cfg = Some model_cls ->
  build_object_from_class_name model_cls cfg = Ok m ->
  torch_load model_path device = Ok ckpt ->
  checkpoint_state_dict model_path ckpt = Ok (PyDict sd) ->
  str_keyed sd = true ->
  (forall k, In k (declared_keys m) <-> In (KStr k) (dict_keys sd)) ->
  (forall k cur, In (k, cur) (state m) ->
     exists t, dict_get (KStr k) sd = Some (PyTensor t)
               /\ tensor_shape t = tensor_shape cur) ->
  exists model,
    build_model build_object_from_class_name torch_load cfg model_path device
      = (["| loaded model weights from '" ++ model_path ++ "'."], Ok model)
    /\ class_name model = class_name m
    /\ training model = false
    /\ module_device model = device
    /\ declared_keys model = declared_keys m
    /\ forall k t, In (k, t) (state model) -> dict_get (KStr k) sd = Some (PyTensor t).
Proof.
  intros Hcls Hres Hload Hck Hstr Hkeys Hvals.
  exists (NNModule (class_name m) (copy_state (state m) sd) false device).
  split; [|repeat split].
  - rewrite (build_model_after_load _ _ _ _ _ _ _ _ Hcls Hres Hload), Hck. cbn [bind].
    assert (Hv : forall k cur v, In (k, cur) (state (to device (eval m))) ->
                   dict_get (KStr k) sd = Some v ->
                   exists t, v = PyTensor t /\ tensor_shape t = tensor_shape cur).
    { intros k cur v Hin Hget. destruct (Hvals k cur Hin) as (t & Ht & Hshape).
      exists t. split; congruence. }
    now rewrite (proj2 (load_state_dict_strict_ok (to device (eval m)) _ sd)
                   (conj Hstr (conj Hkeys (conj Hv eq_refl)))).
  - unfold declared_keys. simpl. apply copy_state_keys.
  - simpl. apply copy_state_values. intros k cur Hin.
    destruct (Hvals k cur Hin) as (t & Ht & _). now exists t.
Qed.

Lemma build_model_loads_matching_checkpoint_witness :
  build_model (fun _ _ => Ok (NNModule "Net" [("w", Tensor [2] [0; 0]%Z)] true "cpu"))
              (fun _ _ => Ok (PyDict [(KStr "model", PyDict [(KStr "w", PyTensor (Tensor [2] [5; 6]%Z))])]))
              [(KStr "model_cls", PyStr "modules.Net")] "model.pt" "cuda"
  = (["| loaded model weights from 'model.pt'."],
     Ok (NNModule "Net" [("w", Tensor [2] [5; 6]%Z)] false "cuda")).
Proof.
  destruct (build_model_loads_matching_checkpoint
              (fun _ _ => Ok (NNModule "Net" [("w", Tensor [2] [0; 0]%Z)] true "cpu"))
              (fun _ _ => Ok (PyDict [(KStr "model", PyDict [(KStr "w", PyTensor (Tensor [2] [5; 6]%Z))])]))
              [(KStr "model_cls", PyStr "modules.Net")] "model.pt" "cuda"
              (PyStr "modules.Net") (NNModule "Net" [("w", Tensor [2] [0; 0]%Z)] true "cpu")
              (PyDict [(KStr "model", PyDict [(KStr "w", PyTensor (Tensor [2] [5; 6]%Z))])])
              [(KStr "w", PyTensor (Tensor [2] [5; 6]%Z))]
              eq_refl eq_refl eq_refl eq_refl eq_refl) as (model & Hb & _).
  - intros k. simpl. split; (intros [H|[]]; left; congruence).
  - intros k cur [H|[]]. injection H as <- <-. eexists. split; reflexivity.
  - reflexivity.
Defined.

(** What a returned model tells about the steps that led to it. *)
Lemma build_model_ok_inv
  (build_object_from_class_name : pyobj -> pydict -> res nn_module)
  (torch_load : string -> string -> res pyobj)
  (cfg : pydict) (model_path device : string)
  (out : list string) (model : nn_module) :
  build_model build_object_from_class_name torch_load cfg model_path device
    = (out, Ok model) ->
  out = ["| loaded model weights from '" ++ model_path ++ "'."]
  /\ training model = false
  /\ module_device model = device
  /\ exists model_cls m ckpt sd,
       dict_get (KStr "model_cls") cfg = Some model_cls
       /\ build_object_from_class_name model_cls cfg = Ok m
       /\ torch_load model_path device = Ok ckpt
       /\ checkpoint_state_dict model_path ckpt = Ok (PyDict sd)
       /\ class_name model = class_name m
       /\ declared_keys model = declared_keys m
       /\ str_keyed sd = true
       /\ (forall k, In k (declared_keys m) <-> In (KStr k) (dict_keys sd))
       /\ (forall k t, In (k, t) (state model) -> dict_get (KStr k) sd = Some (PyTensor t))
       /\ (forall k cur, In (k, cur) (state m) ->
             exists t, dict_get (KStr k) sd = Some (PyTensor t)
                       /\ tensor_shape t = tensor_shape cur).
Proof.
  unfold build_model, dict_getitem.
  destruct (dict_get (KStr "model_cls") cfg) as [cls|] eqn:Ecls; [|discriminate].
  cbn [bind]. destruct (build_object_from_class_name cls cfg) as [m|e] eqn:Em; [|discriminate].
  cbn [bind]. destruct (torch_load model_path device) as [ckpt|e] eqn:Eload; [|discriminate].
  cbn [bind]. destruct (checkpoint_state_dict model_path ckpt) as [sdo|e] eqn:Eck; [|discriminate].
  cbn [bind].
  destruct (load_state_dict (to device (eval m)) sdo true) as [model'|e] eqn:El; [|discriminate].
  intros H. injection H as <- <-.
  destruct sdo as [| | | | | | |sd]; try discriminate.
  apply load_state_dict_strict_ok in El. destruct El as (Hstr & Hkeys & Hvals & ->).
  assert (Hpresent : forall k cur, In (k, cur) (state m) ->
            exists t, dict_get (KStr k) sd = Some (PyTensor t)
                      /\ tensor_shape t = tensor_shape cur).
  { intros k cur Hin.
    assert (Hk : In (KStr k) (dict_keys sd)).
    { apply Hkeys. unfold declared_keys. simpl. apply in_map_iff. now exists (k, cur). }
    apply dict_contains_in in Hk. unfold dict_contains in Hk.
    destruct (dict_get (KStr k) sd) as [v|] eqn:Ev; [|discriminate].
    destruct (Hvals k cur v Hin Ev) as (t & -> & Hshape). now exists t. }
  split; [reflexivity|]. split; [reflexivity|]. split; [reflexivity|].
  exists cls, m, ckpt, sd. repeat split; auto.
  - unfold declared_keys. simpl. apply copy_state_keys.
  - apply Hkeys.
  - apply Hkeys.
  - simpl. apply copy_state_values. intros k cur Hin.
    destruct (Hpresent k cur Hin) as (t & Ht & _). now exists t.
Qed.



(** X6: the builder fails at the first step that fails and goes no further.
    Without a 'model_cls' entry it raises [KeyError] whatever the resolver and
    the loader would do; when the resolver raises, it raises that exception
    whatever the loader would return (the checkpoint plays no part); when the
    loader raises, it raises that.  In each case nothing is printed.  And it
    consults the loader at the given path and device only. *)
Theorem build_model_fails_at_first_failure
  (build_object_from_class_name : pyobj -> pydict -> res nn_module)
  (torch_load : string -> string -> res pyobj)
  (cfg : pydict) (model_path device : string) :
  (dict_get (KStr "model_cls") cfg = None ->
   build_model build_object_from_class_name torch_load cfg model_path device
   = ([], Raise (KeyError (KStr "model_cls"))))
  /\ (forall model_cls e,
        dict_get (KStr "model_cls") cfg = Some model_cls ->
        build_object_from_class_name model_cls cfg = Raise e ->
        forall other_load,
          build_model build_object_from_class_name other_load cfg model_path device
          = ([], Raise e))
  /\ (forall model_cls m e,
        dict_get (KStr "model_cls") cfg = Some model_cls ->
        build_object_from_class_name model_cls cfg = Ok m ->
        torch_load model_path device = Raise e ->
        build_model build_object_from_class_name torch_load cfg model_path device
        = ([], Raise e))
  /\ (forall other_load,
        other_load model_path device = torch_load model_path device ->
        build_model build_object_from_class_name other_load cfg model_path device
        = build_model build_object_from_class_name torch_load cfg model_path device).
Proof.
  unfold build_model, dict_getitem. repeat split.
  - now intros ->.
  - intros cls e -> Hres other. cbn [bind]. now rewrite Hres.
  - intros cls m e -> Hres Hload. cbn [bind]. rewrite Hres. cbn [bind]. now rewrite Hload.
  - intros other Heq. destruct (dict_get (KStr "model_cls") cfg) as [cls|]; [|reflexivity].
    cbn [bind]. destruct (build_object_from_class_name cls cfg); [|reflexivity].
    cbn [bind]. now rewrite Heq.
Qed.

(** ** Construction *)

Lemma truediv_float (x y v : pyobj) :
  truediv x y = Ok v -> exists f, v = PyFloat f.
Proof.
  destruct x, y; simpl; try discriminate.
  - destruct (int_truediv z z0); simpl; [|discriminate].
    intros H; injection H as <-; eauto.
  - destruct (float_of_int z); simpl; [|discriminate].
    destruct (float_truediv a f); simpl; [|discriminate].
    intros H; injection H as <-; eauto.
  - destruct (float_of_int z); simpl; [|discriminate].
    destruct (float_truediv f a); simpl; [|discriminate].
    intros H; injection H as <-; eauto.
  - destruct (float_truediv f f0); simpl; [|discriminate].
    intros H; injection H as <-; eauto.
Qed.

(** X7: a constructed pipeline holds the configuration and the path it was
    given, the device it was given or, without one, 'cuda' if available and
    'cpu' otherwise; its model sits on that device in inference mode; its
    [timestep] is a float even when both configuration entries are integers;
    and the confirmation line is all that was printed. *)
Theorem init_stores_what_it_resolved
  (build_object_from_class_name : pyobj -> pydict -> res nn_module)
  (torch_load : string -> string -> res pyobj) (cuda_is_available : bool)
  (cfg : pydict) (path : string) (dev : option string)
  (out : list string) (obj : BaseInference) :
  init build_object_from_class_name torch_load cuda_is_available cfg path dev
    = (out, Ok obj) ->
  config obj = cfg
  /\ model_path obj = path
  /\ device obj = match dev with
                  | Some d => d
                  | None => if cuda_is_available then "cuda" else "cpu"
                  end
  /\ module_device (model obj) = device obj
  /\ training (model obj) = false
  /\ (exists f, timestep obj = PyFloat f)
  /\ out = ["| loaded model weights from '" ++ path ++ "'."].
Proof.
  unfold init.
  destruct (hop_size <- dict_getitem (KStr "hop_size") cfg ;;
            audio_sample_rate <- dict_getitem (KStr "audio_sample_rate") cfg ;;
            truediv hop_size audio_sample_rate) as [t|e] eqn:Et; [|discriminate].
  destruct (build_model _ _ _ _ _) as [printed [m|e]] eqn:Eb; [|discriminate].
  cbn [bind]. intros H. injection H as <- <-. simpl.
  destruct (build_model_ok_inv _ _ _ _ _ _ _ Eb) as (Hout & Htr & Hdev & _).
  repeat split; auto.
  unfold dict_getitem in Et.
  destruct (dict_get (KStr "hop_size") cfg) as [h|]; [|discriminate].
  destruct (dict_get (KStr "audio_sample_rate") cfg) as [r|]; [|discriminate].
  now apply (truediv_float h r).
Qed.

Lemma init_stores_what_it_resolved_witness :
  exists obj,
    init (fun _ _ => Ok (NNModule "Net" [("w", Tensor [1] [0%Z])] true "cpu"))
         (fun _ _ => Ok (PyDict [(KStr "w", PyTensor (Tensor [1] [9%Z]))]))
         true
         [(KStr "model_cls", PyStr "modules.Net");
          (KStr "hop_size", PyInt 512);
          (KStr "audio_sample_rate", PyInt 44100)]
         "model.pt" None
    = (["| loaded model weights from 'model.pt'."], Ok obj)
    /\ device obj = "cuda"
    /\ module_device (model obj) = "cuda".
Proof.
  eexists. split; [reflexivity|].
  destruct (init_stores_what_it_resolved
              (fun _ _ => Ok (NNModule "Net" [("w", Tensor [1] [0%Z])] true "cpu"))
              (fun _ _ => Ok (PyDict [(KStr "w", PyTensor (Tensor [1] [9%Z]))]))
              true
              [(KStr "model_cls", PyStr "modules.Net");
               (KStr "hop_size", PyInt 512);
               (KStr "audio_sample_rate", PyInt 44100)]
              "model.pt" None _ _ eq_refl) as (_ & _ & Hd & Hm & _).
  split; [exact Hd|]. rewrite Hm. exact Hd.
Defined.

(** The constructor computes [timestep] before it builds the model: when the
    division raises, that is the outcome and the collaborators play no part. *)
Lemma init_timestep_raises
  (build_object_from_class_name : pyobj -> pydict -> res nn_module)
  (torch_load : string -> string -> res pyobj) (cuda_is_available : bool)
  (cfg : pydict) (path : string) (dev : option string) (e : exn) :
  (hop_size <- dict_getitem (KStr "hop_size") cfg ;;
   audio_sample_rate <- dict_getitem (KStr "audio_sample_rate") cfg ;;
   truediv hop_size audio_sample_rate) = Raise e ->
  init build_object_from_class_name torch_load cuda_is_available cfg path dev
  = ([], Raise e).
Proof. unfold init. now intros ->. Qed.

(** X8: a configuration without 'hop_size', or with it but without
    'audio_sample_rate', makes construction raise [KeyError] for that key,
    in that order, before the class is resolved or the checkpoint read:
    nothing is printed, whatever the collaborators would do. *)
Theorem init_requires_hop_size_and_sample_rate
  (build_object_from_class_name : pyobj -> pydict -> res nn_module)
  (torch_load : string -> string -> res pyobj) (cuda_is_available : bool)
  (cfg : pydict) (path : string) (dev : option string) :
  (dict_get (KStr "hop_size") cfg = None ->
   init build_object_from_class_name torch_load cuda_is_available cfg path dev
   = ([], Raise (KeyError (KStr "hop_size"))))
  /\ (forall h, dict_get (KStr "hop_size") cfg = Some h ->
      dict_get (KStr "audio_sample_rate") cfg = None ->
      init build_object_from_class_name torch_load cuda_is_available cfg path dev
      = ([], Raise (KeyError (KStr "audio_sample_rate")))).
Proof.
  split.
  - intros H. apply init_timestep_raises. unfold dict_getitem. now rewrite H.
  - intros h Hh Hr. apply init_timestep_raises. unfold dict_getitem. now rewrite Hh, Hr.
Qed.

(** X9: with a numeric 'hop_size' and the integer 0 as 'audio_sample_rate'
    construction raises [ZeroDivisionError], before any model is built. *)
Theorem init_zero_sample_rate
  (build_object_from_class_name : pyobj -> pydict -> res nn_module)
  (torch_load : string -> string -> res pyobj) (cuda_is_available : bool)
  (cfg : pydict) (path : string) (dev : option string) (h : pyobj) :
  dict_get (KStr "hop_size") cfg = Some h ->
  is_number h = true ->
  dict_get (KStr "audio_sample_rate") cfg = Some (PyInt 0) ->
  exists msg,
    init build_object_from_class_name torch_load cuda_is_available cfg path dev
    = ([], Raise (ZeroDivisionError msg)).
Proof.
  intros Hh Hnum Hr. destruct h; try discriminate; eexists;
    apply init_timestep_raises; unfold dict_getitem; rewrite Hh, Hr; reflexivity.
Qed.

Lemma init_zero_sample_rate_witness :
  exists msg,
    init (fun _ _ => Ok (NNModule "Net" [] true "cpu")) (fun _ _ => Ok (PyDict []))
         false
         [(KStr "hop_size", PyInt 512); (KStr "audio_sample_rate", PyInt 0)]
         "model.pt" None
    = ([], Raise (ZeroDivisionError msg)).
Proof.
  exact (init_zero_sample_rate
           (fun _ _ => Ok (NNModule "Net" [] true "cpu")) (fun _ _ => Ok (PyDict []))
           false
           [(KStr "hop_size", PyInt 512); (KStr "audio_sample_rate", PyInt 0)]
           "model.pt" None (PyInt 512) eq_refl eq_refl eq_refl).
Defined.

(** X10: when one of the two entries is [None], a string, a list or a
    dictionary (and the other is not an array) the division, and with it the
    construction, raises [TypeError]; no model is built. *)
Theorem init_non_numeric_entry
  (build_object_from_class_name : pyobj -> pydict -> res nn_module)
  (torch_load : string -> string -> res pyobj) (cuda_is_available : bool)
  (cfg : pydict) (path : string) (dev : option string) (h r : pyobj) :
  dict_get (KStr "hop_size") cfg = Some h ->
  dict_get (KStr "audio_sample_rate") cfg = Some r ->
  (plain_non_number h = true /\ is_array r = false)
  \/ (plain_non_number r = true /\ is_array h = false) ->
  exists msg,
    init build_object_from_class_name torch_load cuda_is_available cfg path dev
    = ([], Raise (TypeError msg)).
Proof.
  intros Hh Hr Hbad. exists "unsupported operand type(s) for /".
  apply init_timestep_raises. unfold dict_getitem. rewrite Hh, Hr. cbn [bind].
  destruct Hbad as [[Hp Ha]|[Hp Ha]].
  - destruct h; try discriminate; reflexivity.
  - destruct r; try discriminate; destruct h; try discriminate; reflexivity.
Qed.

Lemma init_non_numeric_entry_witness :
  exists msg,
    init (fun _ _ => Ok (NNModule "Net" [] true "cpu")) (fun _ _ => Ok (PyDict []))
         false
         [(KStr "hop_size", PyStr "512"); (KStr "audio_sample_rate", PyInt 44100)]
         "model.pt" None
    = ([], Raise (TypeError msg)).
Proof.
  refine (init_non_numeric_entry
            (fun _ _ => Ok (NNModule "Net" [] true "cpu")) (fun _ _ => Ok (PyDict []))
            false
            [(KStr "hop_size", PyStr "512"); (KStr "audio_sample_rate", PyInt 44100)]
            "model.pt" None (PyStr "512") (PyInt 44100) eq_refl eq_refl _).
  left. split; reflexivity.
Defined.

(** ** The driving loop, further *)

Section LoopFurther.

Context {world : Type}.
Variable self : stages world.

(** Starting the loop with results already collected only puts them in
    front. *)
Lemma infer_loop_acc (ws : list pyobj) :
  forall (acc : list pyobj) (s : world),
    infer_loop self ws acc s
    = match infer self ws s with
      | (s', Ok rs) => (s', Ok (acc ++ rs)%list)
      | (s', Raise e) => (s', Raise e)
      end.
Proof.
  unfold infer. induction ws as [|w ws IH]; intros acc s.
  - simpl. unfold ret. now rewrite app_nil_r.
  - rewrite !infer_loop_cons. destruct (infer_item self w s) as [s1 [r|e]]; [|reflexivity].
    rewrite (IH (acc ++ [r])%list), (IH ([] ++ [r])%list).
    destruct (infer_loop self ws [] s1) as [s2 [rs|e]]; [|reflexivity].
    now rewrite <- app_assoc.
Qed.

Lemma infer_loop_app (ws1 ws2 : list pyobj) :
  forall (acc : list pyobj) (s : world),
    infer_loop self (ws1 ++ ws2)%list acc s
    = match infer_loop self ws1 acc s with
      | (s1, Ok r1) => infer_loop self ws2 r1 s1
      | (s1, Raise e) => (s1, Raise e)
      end.
Proof.
  induction ws1 as [|w ws1 IH]; intros acc s; [reflexivity|].
  simpl app. rewrite !infer_loop_cons.
  destruct (infer_item self w s) as [s1 [r|e]]; [apply IH|reflexivity].
Qed.

(** The calls of a waveform that went through are its three stage calls. *)
Lemma item_calls_ok (w r : pyobj) (s s' : world) :
  infer_item self w s = (s', Ok r) -> item_triple self w (item_calls self w s).
Proof.
  unfold infer_item, item_calls, item_triple, and_then.
  destruct (preprocess self w s) as [s1 [x|e]] eqn:Ep; [|discriminate].
  destruct (forward_model self x s1) as [s2 [y|e]] eqn:Ef; [|discriminate].
  intros _. now exists x, y, s, s1, s2.
Qed.

Lemma traced_run_items_triples (s s' : world) (ws rs : list pyobj) :
  run_items self s ws s' rs ->
  forall log, exists chunks,
    run_items (traced self) (s, log) ws (s', (log ++ List.concat chunks)%list) rs
    /\ Forall2 (item_triple self) ws chunks.
Proof.
  induction 1 as [|s s1 s2 w r ws rs Hitem Hrun IH]; intros log.
  - exists []. simpl. rewrite app_nil_r. split; constructor.
  - destruct (IH (log ++ item_calls self w s)%list) as (chunks & Hrun' & Hall).
    exists (item_calls self w s :: chunks). split.
    + econstructor; [rewrite traced_item, Hitem; reflexivity|].
      simpl List.concat. now rewrite app_assoc.
    + constructor; [eapply item_calls_ok; eassumption|exact Hall].
Qed.

Lemma triples_length (ws : list pyobj) (chunks : list (list stage_call)) :
  Forall2 (item_triple self) ws chunks ->
  List.length (List.concat chunks) = 3 * List.length ws.
Proof.
  induction 1 as [|w c ws chunks (x & y & s0 & s1 & s2 & _ & _ & ->) _ IH]; [reflexivity|].
  simpl List.concat. simpl List.length. rewrite IH. lia.
Qed.

End LoopFurther.

(** X11: a batch can be split anywhere.  [infer] on [ws1 ++ ws2] is [infer]
    on [ws1] followed, from the world it leaves, by [infer] on [ws2], with
    the two result lists joined; if the first part raises, so does the whole
    and the second part is not run. *)
Theorem infer_splits_over_append {world : Type} (self : stages world)
  (ws1 ws2 : list pyobj) (s : world) :
  infer self (ws1 ++ ws2)%list s
  = match infer self ws1 s with
    | (s1, Ok r1) =>
        match infer self ws2 s1 with
        | (s2, Ok r2) => (s2, Ok (r1 ++ r2)%list)
        | (s2, Raise e) => (s2, Raise e)
        end
    | (s1, Raise e) => (s1, Raise e)
    end.
Proof.
  unfold infer at 1. rewrite infer_loop_app. fold (infer self ws1 s).
  destruct (infer self ws1 s) as [s1 [r1|e]]; [|reflexivity].
  apply infer_loop_acc.
Qed.

(** X12: in a call that returns, the stages are called three per waveform,
    in input order, one waveform finished before the next begins:
    [preprocess] on the waveform, [forward_model] on what [preprocess]
    returned, [postprocess] on what [forward_model] returned. *)
Theorem infer_calls_stages_in_order {world : Type} (self : stages world)
  (s s' : world) (waveforms rs : list pyobj) :
  run_items self s waveforms s' rs ->
  exists chunks,
    infer (traced self) waveforms (s, []) = ((s', List.concat chunks), Ok rs)
    /\ Forall2 (item_triple self) waveforms chunks
    /\ List.length (List.concat chunks) = 3 * List.length waveforms.
Proof.
  intros Hrun. destruct (traced_run_items_triples self _ _ _ _ Hrun []) as (chunks & Hrun' & Hall).
  exists chunks. split; [|split; [exact Hall|eapply triples_length; eassumption]].
  unfold infer. now rewrite (infer_loop_run _ _ _ _ _ Hrun' []).
Qed.

Lemma infer_calls_stages_in_order_witness :
  infer (traced counting_stages) [PyArray (Tensor [1] [3%Z])] (0, [])
  = ((3, [CallPreprocess (PyArray (Tensor [1] [3%Z]));
          CallForwardModel (PyDict [(KStr "units", PyTensor (Tensor [1] [3%Z]))]);
          CallPostprocess (PyDict [(KStr "units", PyTensor (Tensor [1] [3%Z]))])]),
     Ok [PyDict [(KStr "note_midi", PyArray (Tensor [1] [3%Z]))]]).
Proof.
  destruct (infer_calls_stages_in_order counting_stages 0 3
              [PyArray (Tensor [1] [3%Z])]
              [PyDict [(KStr "note_midi", PyArray (Tensor [1] [3%Z]))]]) as (chunks & H & _).
  - eapply run_items_cons; [reflexivity|apply run_items_nil].
  - reflexivity.
Defined.

(** X13: a stage that raises ends the call at once.  After the waveforms
    that went through (three calls each), a failing [preprocess] is the last
    call made; a failing [forward_model] is preceded by that waveform's
    [preprocess] only, and [postprocess] is not called for it; a failing
    [postprocess] is the third and last call for it. *)
Theorem infer_stops_at_failing_stage {world : Type} (self : stages world)
  (s s1 : world) (done rs : list pyobj) (w : pyobj) (rest : list pyobj) :
  run_items self s done s1 rs ->
  exists log,
    List.length log = 3 * List.length done
    /\ (forall s2 e,
          preprocess self w s1 = (s2, Raise e) ->
          infer (traced self) (done ++ w :: rest)%list (s, [])
          = ((s2, log ++ [CallPreprocess w])%list, Raise e))
    /\ (forall sa x s2 e,
          preprocess self w s1 = (sa, Ok x) ->
          forward_model self x sa = (s2, Raise e) ->
          infer (traced self) (done ++ w :: rest)%list (s, [])
          = ((s2, log ++ [CallPreprocess w; CallForwardModel x])%list, Raise e))
    /\ (forall sa x sb y s2 e,
          preprocess self w s1 = (sa, Ok x) ->
          forward_model self x sa = (sb, Ok y) ->
          postprocess self y sb = (s2, Raise e) ->
          infer (traced self) (done ++ w :: rest)%list (s, [])
          = ((s2, log ++ [CallPreprocess w; CallForwardModel x; CallPostprocess y])%list,
             Raise e)).
Proof.
  intros Hrun. destruct (traced_run_items_triples self _ _ _ _ Hrun []) as (chunks & Hrun' & Hall).
  exists (List.concat chunks). split; [eapply triples_length; eassumption|].
  assert (Hstop : forall s2 e,
            infer_item self w s1 = (s2, Raise e) ->
            infer (traced self) (done ++ w :: rest)%list (s, [])
            = ((s2, (List.concat chunks ++ item_calls self w s1)%list), Raise e)).
  { intros s2 e Hfail. unfold infer. eapply infer_loop_aborts; [exact Hrun'|].
    rewrite traced_item, Hfail. reflexivity. }
  split; [|split].
  - intros s2 e Hp. rewrite (Hstop s2 e).
    + unfold item_calls. now rewrite Hp.
    + unfold infer_item, and_then. now rewrite Hp.
  - intros sa x s2 e Hp Hf. rewrite (Hstop s2 e).
    + unfold item_calls. now rewrite Hp, Hf.
    + unfold infer_item, and_then. now rewrite Hp, Hf.
  - intros sa x sb y s2 e Hp Hf Hq. rewrite (Hstop s2 e).
    + unfold item_calls. now rewrite Hp, Hf.
    + unfold infer_item, and_then. now rewrite Hp, Hf, Hq.
Qed.

Lemma infer_stops_at_failing_stage_witness :
  infer (traced counting_stages)
    [PyArray (Tensor [1] [3%Z]); PyStr "not a waveform"; PyArray (Tensor [1] [4%Z])] (0, [])
  = ((4, [CallPreprocess (PyArray (Tensor [1] [3%Z]));
          CallForwardModel (PyDict [(KStr "units", PyTensor (Tensor [1] [3%Z]))]);
          CallPostprocess (PyDict [(KStr "units", PyTensor (Tensor [1] [3%Z]))]);
          CallPreprocess (PyStr "not a waveform")]),
     Raise (TypeError "expected an array")).
Proof.
  destruct (infer_stops_at_failing_stage counting_stages 0 3
              [PyArray (Tensor [1] [3%Z])]
              [PyDict [(KStr "note_midi", PyArray (Tensor [1] [3%Z]))]]
              (PyStr "not a waveform") [PyArray (Tensor [1] [4%Z])]) as (log & _ & H & _).
  - eapply run_items_cons; [reflexivity|apply run_items_nil].
  - reflexivity.
Defined.

(** X14: the base class implements no stage.  Its [infer] returns the empty
    list on the empty input and raises [NotImplementedError] on any other,
    at the first [preprocess], which is the only call made; the world is
    left as it was. *)
Theorem base_class_infer {world : Type} (waveforms : list pyobj) (s : world) :
  infer base_stages waveforms s
  = (s, match waveforms with
        | [] => Ok []
        | _ :: _ => Raise NotImplementedError
        end)
  /\ forall w rest log,
       waveforms = w :: rest ->
       infer (traced base_stages) waveforms (s, log)
       = ((s, log ++ [CallPreprocess w])%list, Raise NotImplementedError).
Proof.
  split; [now destruct waveforms|]. now intros w rest log ->.
Qed.

(** X15: a subclass that leaves a stage unimplemented fails at the first use
    of that stage: with [forward_model] missing, right after the first
    waveform is preprocessed; with only [postprocess] missing, right after
    the first forward pass.  The stages that ran keep their effects. *)
Theorem missing_stage_fails_at_first_use {world : Type} (self : stages world)
  (w : pyobj) (rest : list pyobj) (s s1 : world) (x : pyobj) :
  preprocess self w s = (s1, Ok x) ->
  ((forall model_in, forward_model self model_in = forward_model base_stages model_in) ->
   infer self (w :: rest) s = (s1, Raise NotImplementedError))
  /\ (forall s2 y,
        forward_model self x s1 = (s2, Ok y) ->
        (forall model_out, postprocess self model_out = postprocess base_stages model_out) ->
        infer self (w :: rest) s = (s2, Raise NotImplementedError)).
Proof.
  intros Hp. unfold infer. split.
  - intros Hf. rewrite infer_loop_cons. unfold infer_item, and_then.
    now rewrite Hp, Hf.
  - intros s2 y Hf Hq. rewrite infer_loop_cons. unfold infer_item, and_then.
    now rewrite Hp, Hf, Hq.
Qed.

Lemma missing_stage_fails_at_first_use_witness :
  infer {| preprocess := preprocess counting_stages;
           forward_model := forward_model base_stages;
           postprocess := postprocess base_stages |}
        [PyArray (Tensor [1] [3%Z]); PyArray (Tensor [1] [4%Z])] 0
  = (1, Raise NotImplementedError).
Proof.
  refine (proj1 (missing_stage_fails_at_first_use
                   {| preprocess := preprocess counting_stages;
                      forward_model := forward_model base_stages;
                      postprocess := postprocess base_stages |}
                   (PyArray (Tensor [1] [3%Z])) [PyArray (Tensor [1] [4%Z])] 0 1
                   (PyDict [(KStr "units", PyTensor (Tensor [1] [3%Z]))]) eq_refl) _).
  reflexivity.
Defined.

(** X16: with stages that always return and leave the world alone, [infer]
    is the map of their composition over the input, and leaves the world
    alone too. *)
Theorem infer_of_pure_stages_is_map {world : Type} (self : stages world)
  (pre fwd post : pyobj -> pyobj) :
  (forall w s, preprocess self w s = (s, Ok (pre w))) ->
  (forall x s, forward_model self x s = (s, Ok (fwd x))) ->
  (forall y s, postprocess self y s = (s, Ok (post y))) ->
  forall waveforms s,
    infer self waveforms s = (s, Ok (map (fun w => post (fwd (pre w))) waveforms)).
Proof.
  intros Hp Hf Hq waveforms s. unfold infer.
  apply (infer_loop_run self s s waveforms _) with (results := []).
  induction waveforms as [|w ws IH]; simpl; [constructor|].
  econstructor; [|exact IH].
  unfold infer_item, and_then. now rewrite Hp, Hf, Hq.
Qed.

Lemma infer_of_pure_stages_is_map_witness :
  infer {| preprocess := fun w (s : unit) => (s, Ok (PyList [w]));
           forward_model := fun x s => (s, Ok (PyList [x; x]));
           postprocess := fun y s => (s, Ok (PyDict [(KStr "out", y)])) |}
        [PyInt 1; PyInt 2] tt
  = (tt, Ok [PyDict [(KStr "out", PyList [PyList [PyInt 1]; PyList [PyInt 1]])];
             PyDict [(KStr "out", PyList [PyList [PyInt 2]; PyList [PyInt 2]])]]).
Proof.
  exact (infer_of_pure_stages_is_map
           {| preprocess := fun w (s : unit) => (s, Ok (PyList [w]));
              forward_model := fun x s => (s, Ok (PyList [x; x]));
              postprocess := fun y s => (s, Ok (PyDict [(KStr "out", y)])) |}
           (fun w => PyList [w]) (fun x => PyList [x; x])
           (fun y => PyDict [(KStr "out", y)])
           (fun _ _ => eq_refl) (fun _ _ => eq_refl) (fun _ _ => eq_refl)
           [PyInt 1; PyInt 2] tt).
Defined.

(** ** The task registry *)

(** X17: the registry is a well-formed dictionary of exactly two entries:
    'training.MIDIExtractionTask' is bound to
    'SOME.inference.MIDIExtractionInference' and
    'training.QuantizedMIDIExtractionTask' to
    'SOME.inference.QuantizedMIDIExtractionInference'.  Every binding takes
    'training.<Name>Task' to 'SOME.inference.<Name>Inference', different
    task types go to different classes, and any other identifier is absent:
    subscripting raises [KeyError], there is no default pipeline. *)
Theorem task_registry_entries :
  dict_wf task_inference_mapping
  /\ List.length task_inference_mapping = 2
  /\ dict_getitem (KStr "training.MIDIExtractionTask") task_inference_mapping
     = Ok (PyStr "SOME.inference.MIDIExtractionInference")
  /\ dict_getitem (KStr "training.QuantizedMIDIExtractionTask") task_inference_mapping
     = Ok (PyStr "SOME.inference.QuantizedMIDIExtractionInference")
  /\ (forall k v,
        dict_get k task_inference_mapping = Some v ->
        exists name,
          k = KStr ("training." ++ name ++ "Task")
          /\ v = PyStr ("SOME.inference." ++ name ++ "Inference"))
  /\ (forall k1 k2 v,
        dict_get k1 task_inference_mapping = Some v ->
        dict_get k2 task_inference_mapping = Some v -> k1 = k2)
  /\ (forall k,
        k <> KStr "training.MIDIExtractionTask" ->
        k <> KStr "training.QuantizedMIDIExtractionTask" ->
        dict_getitem k task_inference_mapping = Raise (KeyError k)).
Proof.
  assert (Hget : forall k v, dict_get k task_inference_mapping = Some v ->
            (k = KStr "training.MIDIExtractionTask"
             /\ v = PyStr "SOME.inference.MIDIExtractionInference")
            \/ (k = KStr "training.QuantizedMIDIExtractionTask"
                /\ v = PyStr "SOME.inference.QuantizedMIDIExtractionInference")).
  { intros k v. unfold task_inference_mapping. cbn [dict_get].
    destruct (key_eqb_spec k (KStr "training.MIDIExtractionTask")) as [->|_].
    - intros H. injection H as <-. now left.
    - destruct (key_eqb_spec k (KStr "training.QuantizedMIDIExtractionTask")) as [->|_];
        [|discriminate].
      intros H. injection H as <-. now right. }
  split; [|split; [reflexivity|split; [reflexivity|split; [reflexivity|split; [|split]]]]].
  - repeat constructor; simpl; intuition discriminate.
  - intros k v H. destruct (Hget k v H) as [[-> ->]|[-> ->]].
    + now exists "MIDIExtraction".
    + now exists "QuantizedMIDIExtraction".
  - intros k1 k2 v H1 H2.
    destruct (Hget k1 v H1) as [[-> E1]|[-> E1]], (Hget k2 v H2) as [[-> E2]|[-> E2]];
      try reflexivity; rewrite E1 in E2; discriminate E2.
  - intros k H1 H2. unfold dict_getitem, task_inference_mapping. cbn [dict_get].
    destruct (key_eqb_spec k (KStr "training.MIDIExtractionTask")); [contradiction|].
    destruct (key_eqb_spec k (KStr "training.QuantizedMIDIExtractionTask")); [contradiction|].
    reflexivity.
Qed.

(** ** What the loader accepts *)



(** X19: a list returned by [infer] is complete.  Whenever [infer] returns,
    every waveform went through the three stages, in order from the initial
    world, and the list has exactly one entry per waveform. *)
Theorem infer_returns_only_complete_lists {world : Type} (self : stages world)
  (waveforms out : list pyobj) (s s' : world) :
  infer self waveforms s = (s', Ok out) ->
  run_items self s waveforms s' out
  /\ List.length out = List.length waveforms.
Proof.
  intros H. unfold infer in H.
  destruct (infer_loop_returns self _ _ _ _ _ H) as (rs & -> & Hrun).
  split; [exact Hrun|]. simpl. eapply run_items_length, Hrun.
Qed.

Lemma infer_returns_only_complete_lists_witness :
  List.length [PyDict [(KStr "note_midi", PyArray (Tensor [1] [3%Z]))]]
  = List.length [PyArray (Tensor [1] [3%Z])].
Proof.
  exact (proj2 (infer_returns_only_complete_lists counting_stages
                  [PyArray (Tensor [1] [3%Z])]
                  [PyDict [(KStr "note_midi", PyArray (Tensor [1] [3%Z]))]]
                  0 3 eq_refl)).
Defined.
